(** * IndiPC Builder: build configuration and layout engine

    A shallow embedding of the TypeScript sources (types.ts, App.tsx,
    components/ComponentList.tsx, components/VisualBuilder.tsx and
    services/geminiService.ts) together with the properties of the
    build store, the local socket check, the category navigation, the
    connection diagram and the two calls to the generative service. *)

From Stdlib Require Import ZArith Lia DecimalString SpecFloat.
From stdpp Require Import base strings list.

Open Scope Z_scope.

(** ** JavaScript values used by the sources *)

(** Integer-valued JS numbers.  Every number the diagram computes with
    is an integer: pixel coordinates and sizes (all even, see
    [coords_even]) and the literals 2, 60 and 120.  Binary64 addition and
    halving are exact on such values, so they are modelled by [Z].  The
    numbers of an analysis result, which the code only passes on, are
    kept as integers too. *)
Definition number := Z.

(** JS numbers that come from the catalog answer, prices and ratings,
    can be any binary64 value.  They are IEEE 754 double-precision
    numbers with the operations of the standard library's [SpecFloat],
    rounding to nearest, ties to even. *)
Definition float64 := spec_float.

Module Float64.

Definition prec : Z := 53.
Definition emax : Z := 1024.

(** The literal [0]. *)
Definition zero : float64 := S754_zero false.

(** The binary64 value of an integer literal. *)
Definition ofZ (z : Z) : float64 := binary_normalize prec emax z 0 false.

(** [a + b] and [a / b] *)
Definition add : float64 -> float64 -> float64 := SFadd prec emax.
Definition div : float64 -> float64 -> float64 := SFdiv prec emax.

(** The binary64 value of the decimal literal [m / 10^k], as
    [JSON.parse] reads it: the nearest double.  For [m] below 2^53 and
    [k] up to 22 both integers are exact, and the correctly rounded
    quotient is that double. *)
Definition decimal (m : Z) (k : Z) : float64 := div (ofZ m) (ofZ (10 ^ k)).

(** Truthiness of a number: [0], [-0] and [NaN] are falsy. *)
Definition truthy (x : float64) : bool :=
  match x with
  | S754_zero _ | S754_nan => false
  | S754_infinity _ | S754_finite _ _ _ => true
  end.

(** [a || b] on numbers. *)
Definition or (a b : float64) : float64 := if truthy a then a else b.

End Float64.

(** [`${n}`] for an integer-valued number. *)
Definition Number_toString (n : number) : string :=
  NilZero.string_of_int (Z.to_int n).

(** Truthiness of a string ([""] is the only falsy string). *)
Definition truthy_string (s : string) : bool :=
  negb (String.eqb s "").

(** Truthiness of [o] where [o] is an object or [undefined]. *)
Definition truthy_obj {A} (o : option A) : bool :=
  match o with Some _ => true | None => false end.

(** Truthiness of [s] where [s] is a string or [undefined]. *)
Definition truthy_opt_string (o : option string) : bool :=
  match o with Some s => truthy_string s | None => false end.

(** Plain objects with string-like keys: the own properties in insertion
    order, which is the order [Object.values] and [Object.entries]
    enumerate them in. *)
Module JSObject.
Section Obj.
Context {K V : Type} `{EqDecision K}.

Definition t := list (K * V).

(** [o[k]] *)
Fixpoint get (o : list (K * V)) (k : K) : option V :=
  match o with
  | [] => None
  | (k', v) :: o' => if decide (k' = k) then Some v else get o' k
  end.

(** [o[k] = v] on an own copy: an existing key keeps its position, a
    new key goes last. *)
Fixpoint set (o : list (K * V)) (k : K) (v : V) : list (K * V) :=
  match o with
  | [] => [(k, v)]
  | (k', v') :: o' =>
      if decide (k' = k) then (k, v) :: o' else (k', v') :: set o' k v
  end.

(** [delete o[k]] on an own copy. *)
Fixpoint delete (o : list (K * V)) (k : K) : list (K * V) :=
  match o with
  | [] => []
  | (k', v') :: o' =>
      if decide (k' = k) then delete o' k else (k', v') :: delete o' k
  end.

(** [Object.keys(o)], [Object.values(o)] *)
Definition keys (o : list (K * V)) : list K := o.*1.
Definition values (o : list (K * V)) : list V := o.*2.

(** An object has each key at most once. *)
Definition wf (o : list (K * V)) : Prop := NoDup (keys o).
End Obj.
End JSObject.

(** ** types.ts *)

Module Types.

Inductive PartType :=
CPU | MOTHERBOARD | RAM | GPU | STORAGE | PSU | CASE | COOLER.

#[global] Instance PartType_eq_dec : EqDecision PartType.
Proof. solve_decision. Defined.

(** The string value of each enum member. *)
Definition PartType_value (t : PartType) : string :=
match t with
| CPU => "CPU"
| MOTHERBOARD => "Motherboard"
| RAM => "RAM"
| GPU => "GPU"
| STORAGE => "Storage"
| PSU => "Power Supply"
| CASE => "Cabinet"
| COOLER => "Cooler"
end.

(** [Object.values(PartType)], in declaration order. *)
Definition PartType_values : list PartType :=
[CPU; MOTHERBOARD; RAM; GPU; STORAGE; PSU; CASE; COOLER].

(** The records are parsed from the catalog answer, so [specs] can be
    missing although the interface declares it: [None] is a record
    without that property.  A [specs] object is kept as its own entries
    in the order [Object.entries] enumerates them. *)
Record ComponentData := {
id : string;
name : string;
price : float64;
image : string;
type : PartType;
specs : option (list (string * string));
rating : float64;
retailer : string;
url : string
}.

(** [BuildState]: an object with at most one record per category. *)
Definition BuildState := list (PartType * ComponentData).

Record CompatibilityResult := {
isCompatible : bool;
issues : list string;
notes : list string;
estimatedWattage : number;
bottleneck : string;
aiScore : number
}.

End Types.
Export Types.

(** ** components/VisualBuilder.tsx *)

Module VisualBuilder.

Module Rect.
Record t := mk {
  x : number; y : number; width : number; height : number;
  class : string
}.
End Rect.

(** Coordinates for the 500x600 container. *)
Definition COMPONENT_COORDS (t : PartType) : Rect.t :=
  match t with
  | MOTHERBOARD => Rect.mk 20 20 380 440 "z-0 opacity-40"
  | CPU => Rect.mk 168 110 80 80 "z-30"
  | COOLER => Rect.mk 168 110 80 80 "z-40"
  | RAM => Rect.mk 300 110 32 128 "z-30"
  | GPU => Rect.mk 64 240 256 128 "z-30"
  | PSU => Rect.mk 30 480 160 96 "z-30"
  | STORAGE => Rect.mk 380 420 96 64 "z-30"
  | CASE => Rect.mk 0 0 500 600 "z-0 hidden"
  end.

Record point := { x : number; y : number }.

(** [centers[key]], filled for every key of [COMPONENT_COORDS]. *)
Definition centers (t : PartType) : point :=
  let coords := COMPONENT_COORDS t in
  {| x := Rect.x coords + Rect.width coords / 2;
     y := Rect.y coords + Rect.height coords / 2 |}.

(** An SVG path [M p0 L p1 L p2 ...] is kept as its vertices; [path_d]
    is the text the template literals of the source produce. *)
Definition show_point (p : point) : string :=
  Number_toString (x p) +:+ " " +:+ Number_toString (y p).

Fixpoint path_tail (ps : list point) : string :=
  match ps with
  | [] => ""
  | p :: ps' => " L " +:+ show_point p +:+ path_tail ps'
  end.

Definition path_d (ps : list point) : string :=
  match ps with
  | [] => ""
  | p :: ps' => "M " +:+ show_point p +:+ path_tail ps'
  end.

Record connection := {
  path : list point;
  color : string;
  id : string;
  glow : string
}.

(** Orthogonal path: vertical, then horizontal, then vertical.  The
    halving is the integer one, which is the halving of the source when
    the two heights add up to an even number, as on both calls below
    (see [midY_even]). *)
Definition getOrthoPath (start end_ : point) : list point :=
  let midY := (y start + y end_) / 2 in
  [start; {| x := x start; y := midY |};
   {| x := x end_; y := midY |}; end_].

(** [connections.push(c)] *)
Definition push {A} (l : list A) (a : A) : list A := l ++ [a].

(** The [connections] array built by [renderConnections]; the SVG
    groups returned are its elements one for one, keyed by [id]. *)
Definition renderConnections (build : BuildState) : list connection :=
  let connections := [] in
  (* PSU to Motherboard (24-pin) *)
  let connections :=
    if truthy_obj (JSObject.get build PSU)
       && truthy_obj (JSObject.get build MOTHERBOARD)
    then push connections
           {| path := getOrthoPath (centers PSU) (centers MOTHERBOARD);
              color := "url(#grad-power)"; id := "psu-mobo";
              glow := "#22d3ee" |}
    else connections in
  (* PSU to GPU (PCIe Power) *)
  let connections :=
    if truthy_obj (JSObject.get build PSU)
       && truthy_obj (JSObject.get build GPU)
    then push connections
           {| path := getOrthoPath (centers PSU) (centers GPU);
              color := "url(#grad-power-gpu)"; id := "psu-gpu";
              glow := "#facc15" |}
    else connections in
  (* CPU to RAM (Data Bus) *)
  let connections :=
    if truthy_obj (JSObject.get build CPU)
       && truthy_obj (JSObject.get build RAM)
    then push connections
           {| path := [centers CPU; centers RAM];
              color := "url(#grad-data)"; id := "cpu-ram";
              glow := "#a78bfa" |}
    else connections in
  (* CPU to GPU (PCIe Lanes) *)
  let connections :=
    if truthy_obj (JSObject.get build CPU)
       && truthy_obj (JSObject.get build GPU)
    then
      let start := centers CPU in
      let end_ := centers GPU in
      push connections
           {| path := [start; {| x := x start; y := y end_ |}; end_];
              color := "url(#grad-data)"; id := "cpu-gpu";
              glow := "#a78bfa" |}
    else connections in
  (* Motherboard to Storage (SATA) *)
  let connections :=
    if truthy_obj (JSObject.get build MOTHERBOARD)
       && truthy_obj (JSObject.get build STORAGE)
    then
      let start := {| x := x (centers MOTHERBOARD) + 60;
                      y := y (centers MOTHERBOARD) + 120 |} in
      let end_ := centers STORAGE in
      push connections
           {| path := [start; {| x := x end_; y := y start |}; end_];
              color := "#34d399"; id := "mobo-sata";
              glow := "#34d399" |}
    else connections in
  connections.

(** What [renderSlot] puts on the page for a slot: the attributes of the
    slot element and the part whose name and price it shows.  [onClick]
    is the [onRemove] call a click makes, if any. *)
Record slot := {
  key : PartType;
  className : string;
  top : string;
  left : string;
  width : string;
  height : string;
  onClick : option PartType;
  title : string;
  shown : option ComponentData
}.

(** Helper to render a slot.  Every category has coordinates, so the
    [if (!coords) return null] exit is never taken. *)
Definition renderSlot (build : BuildState) (type : PartType) : slot :=
  let part := JSObject.get build type in
  let isActive := truthy_obj part in
  let coords := COMPONENT_COORDS type in
  {| key := type;
     className :=
       "absolute transition-all duration-500 ease-out "
         +:+ Rect.class coords +:+ " "
         +:+ (if isActive then "scale-100 opacity-100 z-50"
              else "scale-95 opacity-80 z-10");
     top := Number_toString (Rect.y coords) +:+ "px";
     left := Number_toString (Rect.x coords) +:+ "px";
     width := Number_toString (Rect.width coords) +:+ "px";
     height := Number_toString (Rect.height coords) +:+ "px";
     onClick := if isActive then Some type else None;
     title :=
       match part with
       | Some part => name part +:+ " (Click to remove)"
       | None => "Empty " +:+ PartType_value type +:+ " Slot"
       end;
     shown := part |}.

(** The categories the component renders a slot for. *)
Definition slotTypes : list PartType := [CPU; COOLER; RAM; GPU; STORAGE; PSU].

(** Component Slots. *)
Definition renderSlots (build : BuildState) : list slot :=
  map (renderSlot build) slotTypes.

End VisualBuilder.

(** The earlier revision of the same component, kept in the sources after
    types.ts: four rules, the data-bus edge keyed on the motherboard
    slot, straight [from]/[to] anchors and a (+50, +100) offset. *)
Module VisualBuilderOld.

Import VisualBuilder.

Record connection := {
  from : point;
  to : point;
  color : string;
  id : string
}.

Definition renderConnections (build : BuildState) : list connection :=
  let connections := [] in
  (* PSU to Motherboard (24-pin) *)
  let connections :=
    if truthy_obj (JSObject.get build PSU)
       && truthy_obj (JSObject.get build MOTHERBOARD)
    then push connections
           {| from := centers PSU; to := centers MOTHERBOARD;
              color := "#22d3ee"; id := "psu-mobo" |}
    else connections in
  (* PSU to GPU (PCIe Power) *)
  let connections :=
    if truthy_obj (JSObject.get build PSU)
       && truthy_obj (JSObject.get build GPU)
    then push connections
           {| from := centers PSU; to := centers GPU;
              color := "#facc15"; id := "psu-gpu" |}
    else connections in
  (* Motherboard to RAM (Data Bus - abstract) *)
  let connections :=
    if truthy_obj (JSObject.get build MOTHERBOARD)
       && truthy_obj (JSObject.get build RAM)
    then push connections
           {| from := centers CPU; to := centers RAM;
              color := "#a78bfa"; id := "cpu-ram" |}
    else connections in
  (* Motherboard to Storage (SATA) *)
  let connections :=
    if truthy_obj (JSObject.get build MOTHERBOARD)
       && truthy_obj (JSObject.get build STORAGE)
    then push connections
           {| from := {| x := x (centers MOTHERBOARD) + 50;
                         y := y (centers MOTHERBOARD) + 100 |};
              to := centers STORAGE;
              color := "#34d399"; id := "mobo-sata" |}
    else connections in
  connections.

End VisualBuilderOld.

(** ** Promises and exceptions *)

(** How a call ends: it returns, or it throws.  For an [async] function
    this is how its promise settles. *)
Inductive outcome (A : Type) :=
  | Returned (a : A)
  | Thrown (e : string).
Arguments Returned {A} a.
Arguments Thrown {A} e.

#[global] Instance outcome_ret : MRet outcome := fun A a => Returned a.
#[global] Instance outcome_bind : MBind outcome := fun A B f m =>
  match m with Returned a => f a | Thrown e => Thrown e end.

(** [try { body } catch (error) { handler }] *)
Definition try_catch {A} (body : outcome A) (handler : string -> outcome A)
  : outcome A :=
  match body with Returned a => Returned a | Thrown e => handler e end.

(** ** JSON values, as [JSON.parse] returns them *)

#[warnings="-register-all"]
Inductive json :=
  | JNull
  | JBool (b : bool)
  | JNumber (n : number)
  | JString (s : string)
  | JArray (l : list json)
  | JObject (fields : list (string * json)).

(** ** services/geminiService.ts *)

Module geminiService.

(** An element of the array the catalog answer parses to.  Its fields
    follow the response schema; [type] is whatever string the service
    wrote, and [specs], which the schema does not require, can be
    missing. *)
Module RawItem.
Record t := mk {
  id : string;
  name : string;
  price : float64;
  image : string;
  type : string;
  specs : option (list (string * string));
  rating : float64;
  retailer : string;
  url : string
}.
End RawItem.

(** What [JSON.parse] gives on a catalog answer: an array of items, or
    some other value (on which [rawData.map] is not a function). *)
Inductive rawData :=
  | RawArray (items : list RawItem.t)
  | RawOther.

(** The two prompts.  Each is a fixed template over these values. *)
Inductive request :=
  | CatalogRequest (category : PartType) (query : string)
  | AnalysisRequest (build : BuildState).

(** [response.text] is a string or [undefined]. *)
Record GenerateContentResponse := { text : option string }.

(** The collaborators outside the repository: the SDK client and the
    JSON parser of the runtime. *)
Record Env := {
  getAI : outcome unit;
  generateContent : request -> outcome GenerateContentResponse;
  JSON_parse_catalog : string -> outcome rawData;
  JSON_parse : string -> outcome json
}.

(** [rawData.map(f)] *)
Definition map_rawData {B} (f : RawItem.t -> B) (d : rawData)
  : outcome (list B) :=
  match d with
  | RawArray items => Returned (map f items)
  | RawOther => Thrown "TypeError: rawData.map is not a function"
  end.

Definition fetchComponents (env : Env) (category : PartType)
    (query : string) : outcome (list ComponentData) :=
  try_catch
    (_ ← getAI env;
     response ← generateContent env (CatalogRequest category query);
     if truthy_opt_string (text response) then
       rawData ← JSON_parse_catalog env (default "" (text response));
       (* Map data to ensure strict type safety/enums where the AI
          might have been loose *)
       map_rawData
         (fun item =>
            {| id := RawItem.id item;
               name := RawItem.name item;
               price := RawItem.price item;
               (* Ensure valid image *)
               image := "https://picsum.photos/seed/"
                          +:+ RawItem.id item +:+ "/200/200";
               (* Force category consistency *)
               type := category;
               specs := RawItem.specs item;
               rating := RawItem.rating item;
               retailer := RawItem.retailer item;
               url := RawItem.url item |})
         rawData
     else Returned [])
    (fun error => Returned []).

(** The object literal of the [catch] branch of [checkCompatibility]. *)
Definition fallback : json :=
  JObject
    [("isCompatible", JBool true);
     ("issues", JArray [JString "Could not verify compatibility (AI Error)"]);
     ("notes", JArray []);
     ("estimatedWattage", JNumber 0);
     ("bottleneck", JString "Unknown");
     ("aiScore", JNumber 0)].

(** The value is returned as parsed; the declared return type
    [CompatibilityResult] is not checked at run time. *)
Definition checkCompatibility (env : Env) (build : BuildState)
  : outcome json :=
  try_catch
    (_ ← getAI env;
     response ← generateContent env (AnalysisRequest build);
     if truthy_opt_string (text response) then
       JSON_parse env (default "" (text response))
     else Thrown "No analysis returned")
    (fun error => Returned fallback).

End geminiService.

(** ** components/ComponentList.tsx *)

Module ComponentList.

(** [`${s}`] for a string or [undefined]. *)
Definition template (o : option string) : string :=
  match o with Some s => s | None => "undefined" end.

(** [record?.specs.socket] for the record of a slot: [undefined] for an
    empty slot, and a [TypeError] for a record without [specs]. *)
Definition specs_socket (record : option ComponentData)
  : outcome (option string) :=
  match record with
  | None => Returned None
  | Some record =>
      match Types.specs record with
      | Some specs => Returned (JSObject.get specs "socket")
      | None =>
          Thrown "TypeError: Cannot read properties of undefined (reading 'socket')"
      end
  end.

(** Logic to check immediate compatibility. *)
Definition getCompatibilityWarning (build : BuildState)
    (part : ComponentData) : outcome (option string) :=
  let specs := default [] (Types.specs part) in
  first ←
    (* Check CPU vs Mobo Socket *)
    (if bool_decide (type part = CPU)
        && truthy_obj (JSObject.get build MOTHERBOARD)
     then
       moboSocket ← specs_socket (JSObject.get build MOTHERBOARD);
       let cpuSocket := JSObject.get specs "socket" in
       if truthy_opt_string moboSocket && truthy_opt_string cpuSocket
          && bool_decide (moboSocket ≠ cpuSocket)
       then Returned (Some ("Socket Mismatch: " +:+ template cpuSocket
                              +:+ " vs " +:+ template moboSocket))
       else Returned None
     else Returned None);
  match first with
  | Some warning => Returned (Some warning)
  | None =>
      if bool_decide (type part = MOTHERBOARD)
         && truthy_obj (JSObject.get build CPU)
      then
        cpuSocket ← specs_socket (JSObject.get build CPU);
        let moboSocket := JSObject.get specs "socket" in
        if truthy_opt_string moboSocket && truthy_opt_string cpuSocket
           && bool_decide (moboSocket ≠ cpuSocket)
        then Returned (Some ("Socket Mismatch: " +:+ template moboSocket
                               +:+ " vs " +:+ template cpuSocket))
        else Returned None
      else Returned None
  end.

(** The component's own state. *)
Record State := {
  items : list ComponentData;
  loading : bool;
  error : option string;
  search : string
}.

Definition initial : State :=
  {| items := []; loading := false; error := None; search := "" |}.

(** [loadItems] up to its [await]. *)
Definition loadItems_begin (s : State) : State :=
  {| items := items s; loading := true; error := None;
     search := search s |}.

(** [loadItems] from the moment the promise of [fetchComponents]
    settles: [setItems] on fulfilment, [setError] on rejection, and
    [setLoading(false)] in both cases. *)
Definition loadItems_settle (data : outcome (list ComponentData))
    (s : State) : State :=
  match data with
  | Returned data =>
      {| items := data; loading := false; error := error s;
         search := search s |}
  | Thrown err =>
      {| items := items s; loading := false;
         error := Some "Failed to load components. Please check API Key.";
         search := search s |}
  end.

Definition loadItems (env : geminiService.Env) (selectedCategory : PartType)
    (s : State) : State :=
  let s := loadItems_begin s in
  loadItems_settle
    (geminiService.fetchComponents env selectedCategory (search s)) s.

(** What the list area shows. *)
Inductive panel :=
  | Spinner
  | ErrorWithRetry (message : string)
  | NoPartsFound
  | Cards (parts : list (ComponentData * option string)).

(** The cards are rendered first to last; a card whose socket check
    throws makes the whole render throw. *)
Definition render (build : BuildState) (s : State) : outcome panel :=
  if loading s then Returned Spinner
  else if truthy_opt_string (error s)
  then Returned (ErrorWithRetry (template (error s)))
  else if bool_decide (length (items s) = 0%nat) then Returned NoPartsFound
  else
    cards ← mapM (fun part =>
                    warning ← getCompatibilityWarning build part;
                    Returned (part, warning))
                 (items s);
    Returned (Cards cards).

(** A row of the specs grid. *)
Record row := { label : string; value : string }.

(** [a || b] on strings. *)
Definition string_or (a : option string) (b : string) : string :=
  match a with
  | Some s => if truthy_string s then s else b
  | None => b
  end.

(** [if (specs.k) relevant.push({ label, value })], where [value] is
    computed from the entry. *)
Definition push_if (entry : option string) (label : string)
    (value : string -> string) (relevant : list row) : list row :=
  match entry with
  | Some s =>
      if truthy_string s
      then relevant ++ [ {| label := label; value := value s |} ]
      else relevant
  | None => relevant
  end.

(** Helper to determine relevant specs to display based on category. *)
Definition getRelevantSpecs (part : ComponentData) : list row :=
  let specs := default [] (specs part) in
  let relevant := [] in
  match type part with
  | CPU =>
      let relevant := push_if (JSObject.get specs "socket") "Socket" (fun s => s) relevant in
      let relevant := push_if (JSObject.get specs "speed") "Speed" (fun s => s) relevant in
      push_if (JSObject.get specs "cores") "Cores"
        (fun _ => string_or (JSObject.get specs "cores") "N/A") relevant
  | MOTHERBOARD =>
      let relevant := push_if (JSObject.get specs "socket") "Socket" (fun s => s) relevant in
      let relevant := push_if (JSObject.get specs "chipset") "Chipset" (fun s => s) relevant in
      push_if (JSObject.get specs "formFactor") "Form"
        (fun _ => string_or (JSObject.get specs "formFactor") "ATX") relevant
  | RAM =>
      let relevant :=
        push_if (JSObject.get specs "type") "Type"
          (fun _ => string_or (JSObject.get specs "type") "DDR4/5") relevant in
      let relevant := push_if (JSObject.get specs "capacity") "Cap" (fun s => s) relevant in
      push_if (JSObject.get specs "speed") "Speed" (fun s => s) relevant
  | GPU =>
      let relevant :=
        push_if (JSObject.get specs "memory") "VRAM"
          (fun _ => string_or (JSObject.get specs "memory")
                      (string_or (JSObject.get specs "capacity") "N/A")) relevant in
      push_if (JSObject.get specs "chipset") "Chip" (fun s => s) relevant
  | PSU =>
      let relevant := push_if (JSObject.get specs "wattage") "Power" (fun s => s) relevant in
      push_if (JSObject.get specs "rating") "Eff."
        (fun _ => string_or (JSObject.get specs "rating") "80+") relevant
  | _ =>
      (* Fallback: take first 2 available keys *)
      relevant ++ map (fun kv => {| label := kv.1; value := kv.2 |})
                      (take 2 specs)
  end.

(** The add button of a card whose socket check gave [warning]: its
    tooltip, and the part it hands to [onSelect] when clicked, warning
    or not. *)
Definition addButton (warning : option string) (part : ComponentData)
  : string * ComponentData :=
  (if truthy_opt_string warning
   then "Add despite warning" else "Add to Build",
   part).

End ComponentList.

(** ** App.tsx *)

Module App.

Definition INITIAL_BUILD : BuildState := [].

Record State := {
  build : BuildState;
  activeCategory : PartType;
  analysis : option json;
  analyzing : bool;
  showAnalysis : bool
}.

(** The initial values of the five [useState] hooks. *)
Definition initial : State :=
  {| build := INITIAL_BUILD; activeCategory := CPU; analysis := None;
     analyzing := false; showAnalysis := false |}.

Definition setBuild (f : BuildState -> BuildState) (s : State) : State :=
  {| build := f (build s); activeCategory := activeCategory s;
     analysis := analysis s; analyzing := analyzing s;
     showAnalysis := showAnalysis s |}.

Definition setActiveCategory (c : PartType) (s : State) : State :=
  {| build := build s; activeCategory := c; analysis := analysis s;
     analyzing := analyzing s; showAnalysis := showAnalysis s |}.

Definition setAnalysis (r : option json) (s : State) : State :=
  {| build := build s; activeCategory := activeCategory s; analysis := r;
     analyzing := analyzing s; showAnalysis := showAnalysis s |}.

Definition setAnalyzing (b : bool) (s : State) : State :=
  {| build := build s; activeCategory := activeCategory s;
     analysis := analysis s; analyzing := b;
     showAnalysis := showAnalysis s |}.

Definition setShowAnalysis (b : bool) (s : State) : State :=
  {| build := build s; activeCategory := activeCategory s;
     analysis := analysis s; analyzing := analyzing s; showAnalysis := b |}.

(** Computed totals.  Every stored value is a record, hence truthy, so
    the [!!p] filter keeps all of [Object.values(build)]. *)
Definition activeParts (build : BuildState) : list ComponentData :=
  filter (fun p : ComponentData => True) (JSObject.values build).

Definition totalPrice (build : BuildState) : float64 :=
  foldl (fun sum part =>
           Float64.add sum (Float64.or (price part) Float64.zero))
        Float64.zero (activeParts build).

(** [activeParts.length], shown as "n/8 Selected". *)
Definition filledCount (build : BuildState) : nat :=
  length (activeParts build).

Definition order : list PartType :=
  [CPU; MOTHERBOARD; RAM; GPU; STORAGE; COOLER; PSU; CASE].

(** [l.indexOf(v)]: the first position of [v], or -1. *)
Fixpoint indexOf_from (l : list PartType) (v : PartType) (i : Z) : Z :=
  match l with
  | [] => -1
  | v' :: l' => if decide (v' = v) then i else indexOf_from l' v (i + 1)
  end.
Definition indexOf (l : list PartType) (v : PartType) : Z :=
  indexOf_from l v 0.

(** [l[i]] for an integer [i]; [None] is [undefined]. *)
Definition at_index (l : list PartType) (i : Z) : option PartType :=
  if i <? 0 then None else l !! Z.to_nat i.

Definition handleAddPart (part : ComponentData) (s : State) : State :=
  let s := setBuild (fun prev => JSObject.set prev (type part) part) s in
  (* Auto advance to next logical category *)
  let currentIndex := indexOf order (type part) in
  if currentIndex <? Z.of_nat (length order) - 1 then
    match at_index order (currentIndex + 1) with
    | Some next => setActiveCategory next s
    | None => s
    end
  else s.

Definition handleRemovePart (type : PartType) (s : State) : State :=
  setBuild (fun prev => let next := prev in JSObject.delete next type) s.

(** [runAnalysis] up to its [await]: the call in flight keeps the build
    it was started with. *)
Definition runAnalysis_begin (s : State) : State * BuildState :=
  (setShowAnalysis true (setAnalyzing true s), build s).

(** [runAnalysis] from the moment [checkCompatibility] settles.  A
    rejection would leave the rest of the function unexecuted. *)
Definition runAnalysis_settle (result : outcome json) (s : State) : State :=
  match result with
  | Returned result => setAnalyzing false (setAnalysis (Some result) s)
  | Thrown _ => s
  end.

(** User actions and promise settlements, one at a time on the single
    thread of the page. *)
Inductive event :=
  | AddPart (part : ComponentData)
  | RemovePart (type : PartType)
  | ResetBuild
  | SelectCategory (type : PartType)
  | RunAnalysis
  | CloseAnalysis
  | AnalysisSettles (i : nat).

(** The page: the hook state and the analysis calls in flight, oldest
    first, each with the build it was started with. *)
Record Page := {
  ui : State;
  inflight : list BuildState
}.

Definition start : Page := {| ui := initial; inflight := [] |}.

Definition step (env : geminiService.Env) (p : Page) (e : event) : Page :=
  match e with
  | AddPart part => {| ui := handleAddPart part (ui p); inflight := inflight p |}
  | RemovePart t => {| ui := handleRemovePart t (ui p); inflight := inflight p |}
  | ResetBuild => {| ui := setBuild (fun _ => []) (ui p); inflight := inflight p |}
  | SelectCategory t =>
      {| ui := setActiveCategory t (ui p); inflight := inflight p |}
  | RunAnalysis =>
      let '(s, snapshot) := runAnalysis_begin (ui p) in
      {| ui := s; inflight := inflight p ++ [snapshot] |}
  | CloseAnalysis =>
      {| ui := setShowAnalysis false (ui p); inflight := inflight p |}
  | AnalysisSettles i =>
      match inflight p !! i with
      | Some snapshot =>
          {| ui := runAnalysis_settle
                     (geminiService.checkCompatibility env snapshot) (ui p);
             inflight := delete i (inflight p) |}
      | None => p
      end
  end.

Definition run (env : geminiService.Env) (p : Page) (es : list event) : Page :=
  foldl (step env) p es.

(** [<VisualBuilder build={build} onRemove={handleRemovePart} />]: a
    click on the slot rendered for [type]. *)
Definition clickSlot (type : PartType) (s : State) : State :=
  match VisualBuilder.onClick (VisualBuilder.renderSlot (build s) type) with
  | Some t => handleRemovePart t s
  | None => s
  end.

(** Truthiness of an integer-valued number: 0 is falsy. *)
Definition truthy_number (n : number) : bool := negb (n =? 0).

(** Chart Data Preparation. *)
Record slice := { name : PartType; value : float64 }.

Definition chartData (build : BuildState) : list slice :=
  filter (fun x => Float64.truthy (value x))
         (map (fun part => {| name := type part; value := price part |})
              (activeParts build)).

Definition COLORS : list string :=
  ["#6366f1"; "#8b5cf6"; "#ec4899"; "#f43f5e"; "#06b6d4"; "#10b981";
   "#f59e0b"; "#84cc16"].

(** [COLORS[index % COLORS.length]] *)
Definition fill (index : nat) : option string :=
  COLORS !! (index mod length COLORS)%nat.

(** The fill of each [Cell] of the pie, slice by slice. *)
Definition cells (build : BuildState) : list (option string) :=
  imap (fun index _ => fill index) (chartData build).

(** Truthiness of a parsed JSON value. *)
Definition truthy_json (j : json) : bool :=
  match j with
  | JNull => false
  | JBool b => b
  | JNumber n => truthy_number n
  | JString s => truthy_string s
  | JArray _ => true
  | JObject _ => true
  end.

(** The analysis overlay: hidden, or one of its three bodies. *)
Inductive overlay :=
  | Diagnostics
  | Report (analysis : json)
  | AnalysisFailed.

Definition renderOverlay (s : State) : option overlay :=
  if showAnalysis s then
    Some (if analyzing s then Diagnostics
          else match analysis s with
               | Some a => if truthy_json a then Report a else AnalysisFailed
               | None => AnalysisFailed
               end)
  else None.

(** Bottom Bar: Quick Stats, shown when a part is selected. *)
Definition renderBottomBar (build : BuildState) : option (list slice * nat) :=
  if (0 <? length (activeParts build))%nat
  then Some (chartData build, length (activeParts build))
  else None.

End App.

(** * Specification vocabulary and sample data *)

(** ** The connection diagram: rule table, kinds and anchors *)

(** The logical kind of an edge.  The source has no such field: the kind
    is what selects the stroke, so it is read back from [color]. *)
Inductive kind := power | data | storage_link.

Definition kind_of_color (color : string) : option kind :=
  if String.eqb color "url(#grad-power)" then Some power
  else if String.eqb color "url(#grad-power-gpu)" then Some power
  else if String.eqb color "url(#grad-data)" then Some data
  else if String.eqb color "#34d399" then Some storage_link
  else None.

(** The rule table as the specification words it: the two endpoint
    slots, the name of the edge and its kind, in firing order. *)
Record rule := {
  source : PartType;
  target : PartType;
  edge : string;
  edge_kind : kind
}.

Definition rule_table : list rule :=
  [ {| source := PSU; target := MOTHERBOARD; edge := "psu-mobo";
       edge_kind := power |};
    {| source := PSU; target := GPU; edge := "psu-gpu";
       edge_kind := power |};
    {| source := CPU; target := RAM; edge := "cpu-ram";
       edge_kind := data |};
    {| source := CPU; target := GPU; edge := "cpu-gpu";
       edge_kind := data |};
    {| source := MOTHERBOARD; target := STORAGE; edge := "mobo-sata";
       edge_kind := storage_link |} ].

(** A slot is filled when the build has a record under its key. *)
Definition filled (build : BuildState) (t : PartType) : Prop :=
  is_Some (JSObject.get build t).

Definition fires (build : BuildState) (r : rule) : bool :=
  truthy_obj (JSObject.get build (source r))
  && truthy_obj (JSObject.get build (target r)).

(** The name and kind of a drawn connection. *)
Definition label (c : VisualBuilder.connection) : string * option kind :=
  (VisualBuilder.id c, kind_of_color (VisualBuilder.color c)).

(** The slots that hold a record, in enum order. *)
Definition occupied (build : BuildState) : list PartType :=
  filter (fun t => truthy_obj (JSObject.get build t)) PartType_values.

(** The data-bus edge between processor and memory. *)
Definition cpu_ram : VisualBuilder.connection :=
  {| VisualBuilder.path :=
       [ {| VisualBuilder.x := 208; VisualBuilder.y := 150 |};
         {| VisualBuilder.x := 316; VisualBuilder.y := 174 |} ];
     VisualBuilder.color := "url(#grad-data)";
     VisualBuilder.id := "cpu-ram";
     VisualBuilder.glow := "#a78bfa" |}.

(** ** Sample parts *)

(** Sample records, priced in whole rupees and with a [specs] object. *)
Definition sample (t : PartType) (id name : string) (price : Z)
    (specs : list (string * string)) : ComponentData :=
  {| Types.id := id; Types.name := name; Types.price := Float64.ofZ price;
     image := "https://picsum.photos/seed/" +:+ id +:+ "/200/200";
     type := t; Types.specs := Some specs; rating := Float64.ofZ 4;
     retailer := "Amazon.in"; url := "" |}.

Definition ryzen : ComponentData :=
  sample CPU "cpu-1" "AMD Ryzen 5 7600" 18999 [("socket", "AM5")].
Definition core_i5 : ComponentData :=
  sample CPU "cpu-2" "Intel Core i5-13400F" 16499 [("socket", "LGA1700")].
Definition b650 : ComponentData :=
  sample MOTHERBOARD "mb-1" "MSI B650M" 14500 [("socket", "AM5")].
Definition z790 : ComponentData :=
  sample MOTHERBOARD "mb-2" "ASUS Z790-P" 21999 [("socket", "LGA1700")].
Definition ddr5 : ComponentData :=
  sample RAM "ram-1" "Corsair 16GB DDR5" 5200 [("capacity", "16GB")].
Definition rtx : ComponentData :=
  sample GPU "gpu-1" "RTX 4060" 29500 [].
Definition ssd : ComponentData :=
  sample STORAGE "ssd-1" "WD SN770 1TB" 6300 [].
Definition psu650 : ComponentData :=
  sample PSU "psu-1" "Deepcool 650W" 4800 [("wattage", "650W")].
Definition cabinet : ComponentData :=
  sample CASE "case-1" "Ant Esports ICE" 3900 [].

(** ** Anchors of a drawn connection *)

(** The first and last vertex of the drawn path. *)
Definition source_anchor (c : VisualBuilder.connection)
  : option VisualBuilder.point := head (VisualBuilder.path c).
Definition target_anchor (c : VisualBuilder.connection)
  : option VisualBuilder.point := last (VisualBuilder.path c).

(** The geometric centre of a slot rectangle. *)
Definition geometric_center (t : PartType) : VisualBuilder.point :=
  let g := VisualBuilder.COMPONENT_COORDS t in
  {| VisualBuilder.x :=
       VisualBuilder.Rect.x g + VisualBuilder.Rect.width g / 2;
     VisualBuilder.y :=
       VisualBuilder.Rect.y g + VisualBuilder.Rect.height g / 2 |}.

(** All five connections: what the component draws for a build that
    fills every slot. *)
Definition all_connections : list VisualBuilder.connection :=
  Eval vm_compute in
    VisualBuilder.renderConnections
      [(CPU, ryzen); (MOTHERBOARD, b650); (RAM, ddr5); (GPU, rtx);
       (STORAGE, ssd); (PSU, psu650)].

(** The storage-link edge. *)
Definition mobo_sata : VisualBuilder.connection :=
  {| VisualBuilder.path :=
       [ {| VisualBuilder.x := 270; VisualBuilder.y := 360 |};
         {| VisualBuilder.x := 428; VisualBuilder.y := 360 |};
         {| VisualBuilder.x := 428; VisualBuilder.y := 452 |} ];
     VisualBuilder.color := "#34d399";
     VisualBuilder.id := "mobo-sata";
     VisualBuilder.glow := "#34d399" |}.

Definition mobo_sata_rule : rule :=
  {| source := MOTHERBOARD; target := STORAGE; edge := "mobo-sata";
     edge_kind := storage_link |}.

(** ** The local socket check *)

(** The socket a record specifies, if any.  An empty [socket] entry is no
    specification: the source tests the entry for truthiness.  Nor does a
    record without [specs] specify one. *)
Definition socket_spec (c : ComponentData) : option string :=
  match JSObject.get (default [] (specs c)) "socket" with
  | Some s => if truthy_string s then Some s else None
  | None => None
  end.

(** The installed part a candidate is checked against. *)
Definition counterpart (build : BuildState) (part : ComponentData)
  : option ComponentData :=
  match type part with
  | CPU => JSObject.get build MOTHERBOARD
  | MOTHERBOARD => JSObject.get build CPU
  | _ => None
  end.

(** What reading the [socket] entry of the part installed in a slot
    gives. *)
Definition installed_socket (build : BuildState) (t : PartType)
  : outcome (option string) :=
  ComponentList.specs_socket (JSObject.get build t).

(** The error of reading [socket] from a missing [specs]. *)
Definition socket_TypeError : string :=
  "TypeError: Cannot read properties of undefined (reading 'socket')".

(** A motherboard as the catalog delivers it when the answer leaves
    [specs] out, which the response schema allows. *)
Definition bare_board : ComponentData :=
  {| Types.id := "mb-3"; Types.name := "Gigabyte A620M";
     Types.price := Float64.ofZ 8990;
     image := "https://picsum.photos/seed/mb-3/200/200";
     type := MOTHERBOARD; Types.specs := None; rating := Float64.ofZ 4;
     retailer := "MDComputers"; url := "" |}.

(** The same for a processor. *)
Definition bare_cpu : ComponentData :=
  {| Types.id := "cpu-3"; Types.name := "AMD Ryzen 5 5600";
     Types.price := Float64.ofZ 12490;
     image := "https://picsum.photos/seed/cpu-3/200/200";
     type := CPU; Types.specs := None; rating := Float64.ofZ 4;
     retailer := "MDComputers"; url := "" |}.

(** ** Category navigation *)

(** The category after [t] in the canonical order, as the specification
    words it: the element that follows the position of [t], none after
    the last. *)
Definition next_in_order (t : PartType) : option PartType :=
  match list_find (fun t' => t' = t) App.order with
  | Some (i, _) => App.order !! S i
  | None => None
  end.

(** ** The build store *)

(** Operations on the slots. *)
Inductive op :=
  | setSlot (component : ComponentData)
  | clearSlot (category : PartType).

Definition apply_op (s : App.State) (o : op) : App.State :=
  match o with
  | setSlot component => App.handleAddPart component s
  | clearSlot category => App.handleRemovePart category s
  end.

(** The build after a sequence of operations on the empty build. *)
Definition build_after (ops : list op) : BuildState :=
  App.build (foldl apply_op App.initial ops).

(** The integer a number denotes when it is a whole number (its
    integral part otherwise; 0 for [NaN] and the infinities). *)
Definition integer_of (x : float64) : Z :=
  match x with
  | S754_finite s m e =>
      cond_Zopp s (if 0 <=? e then Zpos m * 2 ^ e else Zpos m / 2 ^ (- e))
  | _ => 0
  end.

(** A price is a whole number when it is the binary64 value of an
    integer; [rupees] is that integer. *)
Definition whole (x : float64) : Prop := x = Float64.ofZ (integer_of x).

Definition rupees (c : ComponentData) : Z := integer_of (price c).

(** The rupees held in a slot, 0 for an empty slot. *)
Definition slot_rupees (build : BuildState) (t : PartType) : Z :=
  from_option rupees 0 (JSObject.get build t).

Definition Zsum (l : list Z) : Z := foldr Z.add 0 l.

(** The exact sum of the prices over the eight slots. *)
Definition price_sum (build : BuildState) : Z :=
  Zsum (slot_rupees build <$> PartType_values).

(** Every price of the build is a whole number, and the magnitudes of
    the prices add up to less than 2^53. *)
Definition whole_prices (build : BuildState) : Prop :=
  (forall t c, JSObject.get build t = Some c -> whole (price c))
  /\ Zsum ((fun t => Z.abs (slot_rupees build t)) <$> PartType_values)
     < 2 ^ 53.

(** The binary64 sum of a list of numbers, added first to last. *)
Definition float_sum (l : list float64) : float64 :=
  foldl Float64.add Float64.zero l.

(** A record with another price. *)
Definition priced (c : ComponentData) (price : float64) : ComponentData :=
  {| Types.id := id c; Types.name := name c; Types.price := price;
     image := image c; type := type c; Types.specs := specs c;
     rating := rating c; retailer := retailer c; url := url c |}.

(** Three parts with prices in rupees and paise: 18999.99, 14500.1 and
    29500.5. *)
Definition ryzen_paise : ComponentData :=
  priced ryzen (Float64.decimal 1899999 2).
Definition b650_paise : ComponentData :=
  priced b650 (Float64.decimal 145001 1).
Definition rtx_paise : ComponentData :=
  priced rtx (Float64.decimal 295005 1).

(** ** Binary64 arithmetic on integers *)

(** A shift record with no bit shifted out. *)
Definition exact_record (m : Z) : shr_record :=
  {| shr_m := m; shr_r := false; shr_s := false |}.

(** The binary64 representation of a positive integer below 2^53: the
    mantissa is shifted up to 53 bits. *)
Definition canon (s : bool) (q : positive) : float64 :=
  S754_finite s (Z.to_pos (Zpos q * 2 ^ (53 - Zpos (digits2_pos q))))
    (Zpos (digits2_pos q) - 53).

(** Every stored record sits under the key of its own category. *)
Definition keyed_by_category (build : BuildState) : Prop :=
  Forall (fun kv : PartType * ComponentData => type kv.2 = kv.1) build.

(** What holds of every build the operations can produce. *)
Definition store_inv (build : BuildState) : Prop :=
  JSObject.wf build /\ keyed_by_category build.

(** The entry a slot contributes to the object. *)
Definition entry (build : BuildState) (t : PartType)
  : option (PartType * ComponentData) :=
  c ← JSObject.get build t; Some (t, c).

(** ** Sample collaborators *)

(** A provider that is unreachable. *)
Definition env_offline : geminiService.Env :=
  {| geminiService.getAI := Returned ();
     geminiService.generateContent := fun _ => Thrown "TypeError: fetch failed";
     geminiService.JSON_parse_catalog := fun _ => Thrown "SyntaxError";
     geminiService.JSON_parse := fun _ => Thrown "SyntaxError" |}.

(** The double quote, to write JSON texts. *)
Definition dq : string :=
  String (Ascii.Ascii false true false false false true false false) "".
Definition quoted (s : string) : string := dq +:+ s +:+ dq.

(** A catalog answer of one item, and the array it parses to. *)
Definition catalog_text : string :=
  "[{" +:+ quoted "id" +:+ ":" +:+ quoted "cpu-1" +:+ ","
       +:+ quoted "name" +:+ ":" +:+ quoted "AMD Ryzen 5 7600" +:+ ","
       +:+ quoted "price" +:+ ":18999,"
       +:+ quoted "image" +:+ ":" +:+ quoted "https://example.com/ryzen.png" +:+ ","
       +:+ quoted "type" +:+ ":" +:+ quoted "Processors (Desktop)" +:+ ","
       +:+ quoted "specs" +:+ ":{" +:+ quoted "socket" +:+ ":" +:+ quoted "AM5" +:+ "},"
       +:+ quoted "rating" +:+ ":4,"
       +:+ quoted "retailer" +:+ ":" +:+ quoted "Amazon.in" +:+ ","
       +:+ quoted "url" +:+ ":" +:+ dq +:+ dq +:+ "}]".

(** A provider that labels a processor with a category of its own. *)
Definition env_loose : geminiService.Env :=
  {| geminiService.getAI := Returned ();
     geminiService.generateContent :=
       fun _ => Returned {| geminiService.text := Some catalog_text |};
     geminiService.JSON_parse_catalog := fun s =>
       if String.eqb s catalog_text then
         Returned (geminiService.RawArray
           [ geminiService.RawItem.mk "cpu-1" "AMD Ryzen 5 7600"
               (Float64.ofZ 18999)
               "https://example.com/ryzen.png" "Processors (Desktop)"
               (Some [("socket", "AM5")]) (Float64.ofZ 4) "Amazon.in" "" ])
       else Thrown "SyntaxError";
     geminiService.JSON_parse := fun _ => Thrown "SyntaxError" |}.

(** A catalog answer of one motherboard without [specs], and the array
    it parses to. *)
Definition bare_text : string :=
  "[{" +:+ quoted "id" +:+ ":" +:+ quoted "mb-3" +:+ ","
       +:+ quoted "name" +:+ ":" +:+ quoted "Gigabyte A620M" +:+ ","
       +:+ quoted "price" +:+ ":8990,"
       +:+ quoted "type" +:+ ":" +:+ quoted "Motherboard" +:+ ","
       +:+ quoted "rating" +:+ ":4,"
       +:+ quoted "retailer" +:+ ":" +:+ quoted "MDComputers" +:+ ","
       +:+ quoted "url" +:+ ":" +:+ dq +:+ dq +:+ "}]".

Definition env_bare : geminiService.Env :=
  {| geminiService.getAI := Returned ();
     geminiService.generateContent :=
       fun _ => Returned {| geminiService.text := Some bare_text |};
     geminiService.JSON_parse_catalog := fun s =>
       if String.eqb s bare_text then
         Returned (geminiService.RawArray
           [ geminiService.RawItem.mk "mb-3" "Gigabyte A620M"
               (Float64.ofZ 8990) "" "Motherboard" None (Float64.ofZ 4)
               "MDComputers" "" ])
       else Thrown "SyntaxError";
     geminiService.JSON_parse := fun _ => Thrown "SyntaxError" |}.

(** ** Well-formed analysis results *)

Definition as_bool (j : json) : option bool :=
  match j with JBool b => Some b | _ => None end.
Definition as_number (j : json) : option number :=
  match j with JNumber n => Some n | _ => None end.
Definition as_string (j : json) : option string :=
  match j with JString s => Some s | _ => None end.
Definition as_strings (j : json) : option (list string) :=
  match j with JArray l => mapM as_string l | _ => None end.

(** A value is a well-formed [CompatibilityResult] when it is an object
    with the six fields of the interface at their declared types. *)
Definition as_CompatibilityResult (j : json) : option CompatibilityResult :=
  match j with
  | JObject fields =>
      c ← JSObject.get fields "isCompatible" ≫= as_bool;
      i ← JSObject.get fields "issues" ≫= as_strings;
      n ← JSObject.get fields "notes" ≫= as_strings;
      w ← JSObject.get fields "estimatedWattage" ≫= as_number;
      b ← JSObject.get fields "bottleneck" ≫= as_string;
      a ← JSObject.get fields "aiScore" ≫= as_number;
      Some {| isCompatible := c; issues := i; notes := n;
              estimatedWattage := w; bottleneck := b; aiScore := a |}
  | _ => None
  end.

(** The well-formed result the collaborator delivers for a build, if it
    delivers one: nothing throws, there is an answer text, it parses, and
    the parsed value is a well-formed result. *)
Definition well_formed_answer (env : geminiService.Env) (build : BuildState)
  : option CompatibilityResult :=
  match geminiService.getAI env with
  | Returned _ =>
      match geminiService.generateContent env
              (geminiService.AnalysisRequest build) with
      | Returned response =>
          match geminiService.text response with
          | Some txt =>
              match geminiService.JSON_parse env txt with
              | Returned j => as_CompatibilityResult j
              | Thrown _ => None
              end
          | None => None
          end
      | Thrown _ => None
      end
  | Thrown _ => None
  end.

(** ** Sample answers and traces *)

(** A well-formed answer text and the value it parses to. *)
Definition answer_text : string :=
  "{" +:+ quoted "isCompatible" +:+ ":true,"
      +:+ quoted "issues" +:+ ":[],"
      +:+ quoted "notes" +:+ ":[],"
      +:+ quoted "estimatedWattage" +:+ ":450,"
      +:+ quoted "bottleneck" +:+ ":" +:+ quoted "None" +:+ ","
      +:+ quoted "aiScore" +:+ ":88}".

Definition answer : json :=
  JObject
    [("isCompatible", JBool true); ("issues", JArray []); ("notes", JArray []);
     ("estimatedWattage", JNumber 450); ("bottleneck", JString "None");
     ("aiScore", JNumber 88)].

(** [JSON.parse] on the three texts used below; it throws on the others
    that occur. *)
Definition parse_table (s : string) : outcome json :=
  if String.eqb s "{}" then Returned (JObject [])
  else if String.eqb s "null" then Returned JNull
  else if String.eqb s answer_text then Returned answer
  else Thrown "SyntaxError".

(** A service that answers every analysis with the empty object, which
    its response schema allows: no property is required. *)
Definition env_empty_object : geminiService.Env :=
  {| geminiService.getAI := Returned ();
     geminiService.generateContent :=
       fun _ => Returned {| geminiService.text := Some "{}" |};
     geminiService.JSON_parse_catalog := fun _ => Returned geminiService.RawOther;
     geminiService.JSON_parse := parse_table |}.

(** A service whose analysis of a build with the Ryzen processor times
    out, and which answers every other build. *)
Definition env_slow_first : geminiService.Env :=
  {| geminiService.getAI := Returned ();
     geminiService.generateContent := fun request =>
       match request with
       | geminiService.AnalysisRequest build =>
           match JSObject.get build CPU with
           | Some cpu =>
               if String.eqb (id cpu) "cpu-1" then Thrown "deadline exceeded"
               else Returned {| geminiService.text := Some answer_text |}
           | None => Returned {| geminiService.text := Some answer_text |}
           end
       | geminiService.CatalogRequest _ _ =>
           Returned {| geminiService.text := None |}
       end;
     geminiService.JSON_parse_catalog := fun _ => Returned geminiService.RawOther;
     geminiService.JSON_parse := parse_table |}.

(** The user starts an analysis of build A, swaps the processor, starts
    an analysis of build B; B is answered first, then the request for A
    fails. *)
Definition stale_trace : list App.event :=
  [App.AddPart ryzen; App.RunAnalysis; App.AddPart core_i5; App.RunAnalysis;
   App.AnalysisSettles 1; App.AnalysisSettles 0].

(** ** Further vocabulary *)

(** The build of the page after a list of events. *)
Definition build_of (env : geminiService.Env) (es : list App.event)
  : BuildState :=
  App.build (App.ui (App.run env App.start es)).

(** The connection the component draws for a rule of the table. *)
Definition drawn_for (r : rule) : list VisualBuilder.connection :=
  filter (fun c => VisualBuilder.id c = edge r) all_connections.

(** Two points on one vertical or one horizontal line. *)
Definition aligned (p q : VisualBuilder.point) : Prop :=
  VisualBuilder.x p = VisualBuilder.x q \/ VisualBuilder.y p = VisualBuilder.y q.

(** A path whose segments are all vertical or horizontal. *)
Fixpoint orthogonal (ps : list VisualBuilder.point) : Prop :=
  match ps with
  | p :: (q :: _) as ps' => aligned p q /\ orthogonal ps'
  | _ => True
  end.

(** Clicks on slots, one after the other. *)
Definition click_all (ts : list PartType) (s : App.State) : App.State :=
  foldl (fun s t => App.clickSlot t s) s ts.

(** The four rules of the earlier revision of the diagram: the data-bus
    edge is fired by the motherboard and memory slots. *)
Definition old_rule_table : list rule :=
  [ {| source := PSU; target := MOTHERBOARD; edge := "psu-mobo";
       edge_kind := power |};
    {| source := PSU; target := GPU; edge := "psu-gpu";
       edge_kind := power |};
    {| source := MOTHERBOARD; target := RAM; edge := "cpu-ram";
       edge_kind := data |};
    {| source := MOTHERBOARD; target := STORAGE; edge := "mobo-sata";
       edge_kind := storage_link |} ].

(** A service whose answer to every analysis is the text [null]. *)
Definition env_null : geminiService.Env :=
  {| geminiService.getAI := Returned ();
     geminiService.generateContent :=
       fun _ => Returned {| geminiService.text := Some "null" |};
     geminiService.JSON_parse_catalog := fun _ => Returned geminiService.RawOther;
     geminiService.JSON_parse := parse_table |}.

(** A storage part with three spec entries, one of them empty. *)
Definition hdd : ComponentData :=
  sample STORAGE "hdd-1" "Seagate Barracuda 2TB" 5400
    [("capacity", "2TB"); ("speed", "7200RPM"); ("wattage", "")].

(** The row of the grid for a spec entry. *)
Definition row_of (kv : string * string) : ComponentList.row :=
  {| ComponentList.label := kv.1; ComponentList.value := kv.2 |}.

(** What holds of the overlay state on every page the user can reach. *)
Definition overlay_inv (env : geminiService.Env) (p : App.Page) : Prop :=
  (App.showAnalysis (App.ui p) = true -> App.analyzing (App.ui p) = false ->
   is_Some (App.analysis (App.ui p)))
  /\ (forall j, App.analysis (App.ui p) = Some j ->
        exists snapshot,
          geminiService.checkCompatibility env snapshot = Returned j)
  /\ (App.analyzing (App.ui p) = true -> App.inflight p ≠ []).

(** * Properties *)

(** ** Objects *)

Section JSObjectFacts.
Context {K V : Type} `{EqDecision K}.
Implicit Types (o : list (K * V)) (k : K) (v : V).

Lemma get_set o k v k' :
  JSObject.get (JSObject.set o k v) k' =
  if decide (k = k') then Some v else JSObject.get o k'.
Proof.
  induction o as [|[k0 v0] o IH]; simpl.
  - repeat case_decide; congruence.
  - repeat (case_decide; simpl); subst; try congruence.
Qed.

Lemma get_delete o k k' :
  JSObject.get (JSObject.delete o k) k' =
  if decide (k = k') then None else JSObject.get o k'.
Proof.
  induction o as [|[k0 v0] o IH]; simpl.
  - by case_decide.
  - repeat (case_decide; simpl); subst; try congruence.
Qed.

Lemma keys_set o k v :
  JSObject.keys (JSObject.set o k v) =
  if decide (k ∈ JSObject.keys o) then JSObject.keys o
  else JSObject.keys o ++ [k].
Proof.
  unfold JSObject.keys.
  induction o as [|[k0 v0] o IH].
  - done.
  - cbn [JSObject.set fmap list_fmap fst].
    destruct (decide (k0 = k)) as [->|Hne].
    + rewrite decide_True; [done | left].
    + cbn [fmap list_fmap fst]. rewrite IH.
      destruct (decide (k ∈ o.*1)) as [Hin|Hin].
      * rewrite decide_True; [done | by right].
      * rewrite decide_False; [done |].
        intros [?|?]%elem_of_cons; congruence.
Qed.

Lemma keys_delete o k :
  JSObject.keys (JSObject.delete o k) =
  filter (fun k' => k' ≠ k) (JSObject.keys o).
Proof.
  unfold JSObject.keys.
  induction o as [|[k0 v0] o IH]; [done |].
  cbn [JSObject.delete fmap list_fmap fst].
  destruct (decide (k0 = k)) as [->|Hne].
  - rewrite filter_cons_False; [done | tauto].
  - cbn [fmap list_fmap fst].
    rewrite filter_cons_True; [| done]. by rewrite IH.
Qed.

Lemma wf_set o k v : JSObject.wf o -> JSObject.wf (JSObject.set o k v).
Proof.
  unfold JSObject.wf. intros Hwf. rewrite keys_set.
  case_decide as Hin; [done |].
  apply NoDup_app. split_and!; [done | | apply NoDup_singleton].
  intros k' Hk' ->%list_elem_of_singleton. done.
Qed.

Lemma wf_delete o k : JSObject.wf o -> JSObject.wf (JSObject.delete o k).
Proof.
  unfold JSObject.wf. intros Hwf. rewrite keys_delete.
  by apply NoDup_filter.
Qed.

Lemma get_Some_elem_of o k v :
  JSObject.get o k = Some v -> (k, v) ∈ o.
Proof.
  induction o as [|[k0 v0] o IH]; simpl; [done |].
  case_decide; [intros [= <-]; subst; left | right; auto].
Qed.

Lemma elem_of_get o k v :
  JSObject.wf o -> (k, v) ∈ o -> JSObject.get o k = Some v.
Proof.
  unfold JSObject.wf, JSObject.keys.
  induction o as [|[k0 v0] o IH]; simpl.
  - by intros _ ?%elem_of_nil.
  - intros [Hnotin Hwf]%NoDup_cons [[= -> ->]|Hin]%elem_of_cons.
    + by rewrite decide_True.
    + rewrite decide_False; [by apply IH |].
      intros ->. apply Hnotin.
      by apply (list_elem_of_fmap_2 fst _ (k, v)).
Qed.

Lemma get_None_keys o k :
  JSObject.get o k = None <-> k ∉ JSObject.keys o.
Proof.
  unfold JSObject.keys.
  induction o as [|[k0 v0] o IH]; simpl.
  - split; [intros _ ?%elem_of_nil; done | done].
  - case_decide as Hk; subst.
    + split; [done | intros []; left].
    + rewrite IH, not_elem_of_cons.
      split; [intros ?; split; [congruence | done] | by intros [_ ?]].
Qed.
End JSObjectFacts.

(** ** The connection diagram *)

Lemma truthy_obj_filled build t :
  truthy_obj (JSObject.get build t) = true <-> filled build t.
Proof.
  unfold filled. destruct (JSObject.get build t); simpl.
  - split; [eauto | done].
  - split; [done | by intros [? ?]].
Qed.

Lemma fires_filled build r :
  fires build r = true <-> filled build (source r) /\ filled build (target r).
Proof.
  unfold fires. rewrite andb_true_iff. by rewrite !truthy_obj_filled.
Qed.

(** Only six lookups decide the diagram. *)
Ltac by_slots build :=
  generalize (truthy_obj (JSObject.get build PSU)),
    (truthy_obj (JSObject.get build MOTHERBOARD)),
    (truthy_obj (JSObject.get build GPU)),
    (truthy_obj (JSObject.get build CPU)),
    (truthy_obj (JSObject.get build RAM)),
    (truthy_obj (JSObject.get build STORAGE));
  intros [] [] [] [] [] [].

(** The connections drawn are the fired rules of the table, in order. *)
Lemma renderConnections_labels build :
  label <$> VisualBuilder.renderConnections build =
  (fun r => (edge r, Some (edge_kind r))) <$> filter (fun r => fires build r) rule_table.
Proof.
  unfold rule_table. rewrite !filter_cons, filter_nil.
  unfold fires, VisualBuilder.renderConnections. cbn [source target].
  by_slots build; vm_compute; reflexivity.
Qed.

Lemma rule_table_edge_inj r r' :
  r ∈ rule_table -> r' ∈ rule_table -> edge r = edge r' -> r = r'.
Proof.
  unfold rule_table. rewrite !elem_of_cons, !elem_of_nil.
  intros H H'.
  repeat (destruct H as [->|H]); try done;
    repeat (destruct H' as [->|H']); try done; simpl; intros [=]; done.
Qed.

Lemma renderConnections_edge_iff build r :
  r ∈ rule_table ->
  (exists c, c ∈ VisualBuilder.renderConnections build
             /\ VisualBuilder.id c = edge r)
  <-> filled build (source r) /\ filled build (target r).
Proof.
  intros Hr. rewrite <- fires_filled. split.
  - intros (c & Hc & Hid).
    assert (label c ∈ label <$> VisualBuilder.renderConnections build) as Hl
      by (by apply list_elem_of_fmap_2).
    rewrite renderConnections_labels in Hl.
    apply list_elem_of_fmap in Hl as (r' & Heq & [Hf Hr']%list_elem_of_filter).
    unfold label in Heq. injection Heq as Hedge Hkind. rewrite Hid in Hedge.
    rewrite (rule_table_edge_inj r r' Hr Hr' Hedge). by apply Is_true_true.
  - intros Hf.
    assert ((edge r, Some (edge_kind r))
              ∈ label <$> VisualBuilder.renderConnections build) as Hl.
    { rewrite renderConnections_labels.
      apply (list_elem_of_fmap_2 (fun r => (edge r, Some (edge_kind r)))).
      apply list_elem_of_filter. split; [by rewrite Hf | done]. }
    apply list_elem_of_fmap in Hl as (c & Heq & Hc).
    exists c. split; [done |]. unfold label in Heq.
    by injection Heq as Hedge Hkind.
Qed.

Lemma elem_of_PartType_values t : t ∈ PartType_values.
Proof. unfold PartType_values. destruct t; repeat constructor. Qed.

Lemma truthy_of_occupied build l t :
  occupied build = l ->
  truthy_obj (JSObject.get build t) = bool_decide (t ∈ l).
Proof.
  intros <-. unfold occupied.
  destruct (truthy_obj (JSObject.get build t)) eqn:Ht; symmetry.
  - apply bool_decide_eq_true, list_elem_of_filter.
    split; [by rewrite Ht | apply elem_of_PartType_values].
  - apply bool_decide_eq_false. intros [Hf _]%list_elem_of_filter.
    by rewrite Ht in Hf.
Qed.

Lemma renderConnections_cpu_ram build :
  occupied build = [CPU; RAM] ->
  VisualBuilder.renderConnections build = [cpu_ram].
Proof.
  intros Hocc. unfold VisualBuilder.renderConnections.
  rewrite !(truthy_of_occupied _ _ _ Hocc). reflexivity.
Qed.

Lemma renderConnections_cpu_ram_psu build :
  occupied build = [CPU; RAM; PSU] ->
  VisualBuilder.renderConnections build = [cpu_ram].
Proof.
  intros Hocc. unfold VisualBuilder.renderConnections.
  rewrite !(truthy_of_occupied _ _ _ Hocc). reflexivity.
Qed.

Lemma elem_of_occupied build t : t ∈ occupied build <-> filled build t.
Proof.
  unfold occupied. rewrite list_elem_of_filter, <- truthy_obj_filled.
  split.
  - intros [Ht _]. by apply Is_true_true.
  - intros Ht. split; [by rewrite Ht | apply elem_of_PartType_values].
Qed.

(** Halving is exact on every size of the table and on the two sums
    [getOrthoPath] is called with, so the integer model loses nothing. *)
Lemma coords_even t :
  VisualBuilder.Rect.width (VisualBuilder.COMPONENT_COORDS t) mod 2 = 0
  /\ VisualBuilder.Rect.height (VisualBuilder.COMPONENT_COORDS t) mod 2 = 0.
Proof. by destruct t. Qed.

Lemma midY_even :
  (VisualBuilder.y (VisualBuilder.centers PSU)
   + VisualBuilder.y (VisualBuilder.centers MOTHERBOARD)) mod 2 = 0
  /\ (VisualBuilder.y (VisualBuilder.centers PSU)
      + VisualBuilder.y (VisualBuilder.centers GPU)) mod 2 = 0.
Proof. done. Qed.

(** The text of the [d] attribute of each of the five paths. *)
Example path_d_psu_mobo :
  VisualBuilder.path_d
    (VisualBuilder.getOrthoPath (VisualBuilder.centers PSU)
                                (VisualBuilder.centers MOTHERBOARD))
  = "M 110 528 L 110 384 L 210 384 L 210 240".
Proof. reflexivity. Qed.

Example path_d_cpu_ram :
  VisualBuilder.path_d (VisualBuilder.path cpu_ram) = "M 208 150 L 316 174".
Proof. reflexivity. Qed.

(** C1. The connections drawn are exactly the fired rules of the table
    (power supply to motherboard, power supply to graphics card,
    processor to memory, processor to graphics card, motherboard to
    storage), in that order and with the table's kinds: an edge of a rule
    is present if and only if both endpoint slots of the rule are filled.
    A build holding only a processor and a memory module gives the single
    data edge between them, filling the power supply as well adds
    nothing, and the empty build gives no edge. *)
Theorem C1_edges_match_rule_table (build : BuildState) :
  (label <$> VisualBuilder.renderConnections build
   = (fun r => (edge r, Some (edge_kind r)))
       <$> filter (fun r => fires build r) rule_table)
  /\ (forall r, r ∈ rule_table ->
        (exists c, c ∈ VisualBuilder.renderConnections build
                   /\ VisualBuilder.id c = edge r)
        <-> filled build (source r) /\ filled build (target r))
  /\ (occupied build = [CPU; RAM] ->
        VisualBuilder.renderConnections build = [cpu_ram]
        /\ label cpu_ram = ("cpu-ram", Some data))
  /\ (occupied build = [CPU; RAM; PSU] ->
        VisualBuilder.renderConnections build = [cpu_ram])
  /\ VisualBuilder.renderConnections [] = [].
Proof.
  split_and!.
  - apply renderConnections_labels.
  - intros r Hr. by apply renderConnections_edge_iff.
  - intros Hocc. split; [by apply renderConnections_cpu_ram | reflexivity].
  - apply renderConnections_cpu_ram_psu.
  - reflexivity.
Qed.

Lemma C1_edges_witness :
  occupied [(RAM, ddr5); (CPU, ryzen)] = [CPU; RAM]
  /\ VisualBuilder.renderConnections [(RAM, ddr5); (CPU, ryzen)] = [cpu_ram]
  /\ occupied [(RAM, ddr5); (CPU, ryzen); (PSU, psu650)] = [CPU; RAM; PSU]
  /\ VisualBuilder.renderConnections
       [(RAM, ddr5); (CPU, ryzen); (PSU, psu650)] = [cpu_ram].
Proof.
  split; [reflexivity |]. split.
  - exact (proj1 (proj1 (proj2 (proj2
             (C1_edges_match_rule_table [(RAM, ddr5); (CPU, ryzen)])))
             eq_refl)).
  - split; [reflexivity |].
    exact (proj1 (proj2 (proj2 (proj2
             (C1_edges_match_rule_table
                [(RAM, ddr5); (CPU, ryzen); (PSU, psu650)]))))
             eq_refl).
Defined.

Lemma elem_of_push_if {A} (b : bool) (l : list A) (a c : A) :
  c ∈ (if b then VisualBuilder.push l a else l) -> c ∈ l \/ c = a.
Proof.
  destruct b; [| by left]. unfold VisualBuilder.push.
  rewrite elem_of_app, list_elem_of_singleton. tauto.
Qed.

Lemma renderConnections_among build c :
  c ∈ VisualBuilder.renderConnections build -> c ∈ all_connections.
Proof.
  unfold VisualBuilder.renderConnections. cbv zeta. intros Hc.
  repeat (apply elem_of_push_if in Hc as [Hc | ->]);
    [by apply elem_of_nil in Hc | ..];
    vm_compute; repeat constructor.
Qed.

(** C7, as amended.  Every drawn edge ends at the centre of its target
    slot and starts at the centre of its source slot, except that the
    motherboard-to-storage edge starts (+60, +120) away from the centre
    of the motherboard, at (270, 360). *)
Theorem C7_anchor_points (build : BuildState) (r : rule)
    (c : VisualBuilder.connection) :
  r ∈ rule_table ->
  c ∈ VisualBuilder.renderConnections build ->
  VisualBuilder.id c = edge r ->
  target_anchor c = Some (geometric_center (target r))
  /\ (edge r ≠ "mobo-sata" ->
        source_anchor c = Some (geometric_center (source r)))
  /\ (edge r = "mobo-sata" ->
        source_anchor c
        = Some {| VisualBuilder.x :=
                    VisualBuilder.x (geometric_center MOTHERBOARD) + 60;
                  VisualBuilder.y :=
                    VisualBuilder.y (geometric_center MOTHERBOARD) + 120 |}
        /\ source_anchor c
           = Some {| VisualBuilder.x := 270; VisualBuilder.y := 360 |}).
Proof.
  intros Hr Hc Hid. apply renderConnections_among in Hc.
  revert Hr Hc. unfold rule_table, all_connections.
  rewrite !elem_of_cons, !elem_of_nil.
  intros Hr Hc.
  repeat (destruct Hc as [->|Hc]); try contradiction;
    repeat (destruct Hr as [->|Hr]); try contradiction;
    try discriminate Hid; clear Hid;
    (split; [reflexivity |]);
    (split; [intros Hne; try reflexivity; by destruct Hne |]);
    intros Heq; try discriminate Heq; split; reflexivity.
Qed.

Lemma C7_anchor_points_witness :
  source_anchor mobo_sata
  = Some {| VisualBuilder.x := 270; VisualBuilder.y := 360 |}
  /\ target_anchor mobo_sata = Some (geometric_center STORAGE).
Proof.
  assert (mobo_sata_rule ∈ rule_table) as Hr by (vm_compute; repeat constructor).
  assert (mobo_sata
            ∈ VisualBuilder.renderConnections [(MOTHERBOARD, b650); (STORAGE, ssd)])
    as Hc by (vm_compute; repeat constructor).
  destruct (C7_anchor_points _ mobo_sata_rule mobo_sata Hr Hc eq_refl)
    as (Ht & _ & Hs).
  split; [exact (proj2 (Hs eq_refl)) | exact Ht].
Defined.

(** C7 as first stated fails: the motherboard end of the storage edge is
    not (+60, +120) from the top-left corner of the motherboard
    rectangle, which would be (80, 140). *)
Lemma C7_top_left_counterexample :
  mobo_sata ∈ VisualBuilder.renderConnections [(MOTHERBOARD, b650); (STORAGE, ssd)]
  /\ VisualBuilder.id mobo_sata = edge mobo_sata_rule
  /\ source_anchor mobo_sata
     <> Some {| VisualBuilder.x :=
                  VisualBuilder.Rect.x (VisualBuilder.COMPONENT_COORDS MOTHERBOARD) + 60;
                VisualBuilder.y :=
                  VisualBuilder.Rect.y (VisualBuilder.COMPONENT_COORDS MOTHERBOARD) + 120 |}.
Proof.
  split; [vm_compute; repeat constructor |].
  split; [reflexivity | vm_compute; discriminate].
Qed.

(** The earlier revision differs on both counts: it draws the data-bus
    edge for a motherboard and a memory module without any processor,
    draws none for a processor and a memory module alone, and offsets the
    storage edge by (+50, +100). *)
Lemma renderConnections_old_differs :
  VisualBuilderOld.id <$> VisualBuilderOld.renderConnections [(MOTHERBOARD, b650); (RAM, ddr5)]
  = ["cpu-ram"]
  /\ VisualBuilderOld.renderConnections [(CPU, ryzen); (RAM, ddr5)] = []
  /\ VisualBuilderOld.from
       <$> VisualBuilderOld.renderConnections [(MOTHERBOARD, b650); (STORAGE, ssd)]
     = [ {| VisualBuilder.x := 260; VisualBuilder.y := 340 |} ].
Proof. by vm_compute. Qed.

(** ** The local socket check *)

Lemma truthy_socket c :
  truthy_opt_string (JSObject.get (default [] (specs c)) "socket")
  = truthy_obj (socket_spec c).
Proof.
  unfold socket_spec.
  destruct (JSObject.get (default [] (specs c)) "socket") as [s|]; simpl;
    [| done].
  by destruct (truthy_string s).
Qed.

Lemma socket_spec_Some c s :
  socket_spec c = Some s ->
  JSObject.get (default [] (specs c)) "socket" = Some s
  /\ truthy_string s = true.
Proof.
  unfold socket_spec.
  destruct (JSObject.get (default [] (specs c)) "socket") as [s'|]; [| done].
  destruct (truthy_string s') eqn:Hs; [| done]. by intros [= ->].
Qed.

Lemma socket_spec_no_specs c : specs c = None -> socket_spec c = None.
Proof. unfold socket_spec. by intros ->. Qed.

(** The check reads the category and socket of the candidate and the
    sockets installed in the two slots, and nothing else. *)
Lemma getCompatibilityWarning_reads build part :
  ComponentList.getCompatibilityWarning build part =
  match type part with
  | CPU =>
      moboSocket ← installed_socket build MOTHERBOARD;
      let cpuSocket := JSObject.get (default [] (specs part)) "socket" in
      Returned
        (if truthy_opt_string moboSocket && truthy_opt_string cpuSocket
            && bool_decide (moboSocket ≠ cpuSocket)
         then Some ("Socket Mismatch: " +:+ ComponentList.template cpuSocket
                      +:+ " vs " +:+ ComponentList.template moboSocket)
         else None)
  | MOTHERBOARD =>
      cpuSocket ← installed_socket build CPU;
      let moboSocket := JSObject.get (default [] (specs part)) "socket" in
      Returned
        (if truthy_opt_string moboSocket && truthy_opt_string cpuSocket
            && bool_decide (moboSocket ≠ cpuSocket)
         then Some ("Socket Mismatch: " +:+ ComponentList.template moboSocket
                      +:+ " vs " +:+ ComponentList.template cpuSocket)
         else None)
  | _ => Returned None
  end.
Proof.
  unfold ComponentList.getCompatibilityWarning, installed_socket.
  destruct (type part); simpl; try done.
  - destruct (JSObject.get build MOTHERBOARD) as [mobo|]; cbn; [| done].
    destruct (specs mobo) as [sp|]; cbn; [| done].
    by destruct (_ && _).
  - destruct (JSObject.get build CPU) as [cpu|]; cbn.
    + destruct (specs cpu) as [sp|]; cbn; [| done].
      by destruct (_ && _).
    + by destruct (truthy_opt_string _).
Qed.

(** The check in terms of the two socket specifications. *)
Lemma getCompatibilityWarning_normal build part :
  ComponentList.getCompatibilityWarning build part
  = match counterpart build part with
    | Some other =>
        match specs other with
        | Some _ =>
            match socket_spec part, socket_spec other with
            | Some s, Some m =>
                if bool_decide (s ≠ m)
                then Returned
                       (Some ("Socket Mismatch: " +:+ s +:+ " vs " +:+ m))
                else Returned None
            | _, _ => Returned None
            end
        | None => Thrown socket_TypeError
        end
    | None => Returned None
    end.
Proof.
  rewrite getCompatibilityWarning_reads.
  unfold counterpart, installed_socket, ComponentList.specs_socket.
  destruct (type part); try done.
  - destruct (JSObject.get build MOTHERBOARD) as [other|]; cbn; [| done].
    pose proof (truthy_socket other) as Hto.
    pose proof (socket_spec_Some other) as Hso.
    destruct (specs other) as [sp|]; cbn in *; [| done].
    rewrite Hto, truthy_socket.
    destruct (socket_spec part) as [s|] eqn:Hs;
      destruct (socket_spec other) as [m|] eqn:Hm; cbn;
      rewrite ?andb_false_r; try done.
    apply socket_spec_Some in Hs as [-> _].
    destruct (Hso m eq_refl) as [-> _]. cbn.
    destruct (decide (s = m)) as [->|Hne].
    + by rewrite !bool_decide_eq_false_2 by (intros H; by apply H).
    + by rewrite !bool_decide_eq_true_2 by congruence.
  - destruct (JSObject.get build CPU) as [other|]; cbn;
      [| by destruct (truthy_opt_string _)].
    pose proof (truthy_socket other) as Hto.
    pose proof (socket_spec_Some other) as Hso.
    destruct (specs other) as [sp|]; cbn in *; [| done].
    rewrite Hto, truthy_socket.
    destruct (socket_spec part) as [s|] eqn:Hs;
      destruct (socket_spec other) as [m|] eqn:Hm; cbn;
      rewrite ?andb_false_r; try done.
    apply socket_spec_Some in Hs as [-> _].
    destruct (Hso m eq_refl) as [-> _]. cbn.
    destruct (decide (s = m)) as [->|Hne].
    + by rewrite !bool_decide_eq_false_2 by (intros H; by apply H).
    + by rewrite !bool_decide_eq_true_2 by congruence.
Qed.

(** C2, what the code does.  A candidate processor whose socket [s]
    differs from the socket [m] of the installed motherboard gets exactly
    the warning "Socket Mismatch: s vs m"; a candidate motherboard with
    socket [m] against an installed processor with socket [s] gets
    "Socket Mismatch: m vs s"; there is no warning when the two sockets
    are equal or either side has no socket specification, provided the
    installed part carries a [specs] object.  When the installed part has
    no [specs] object the check does not answer "no warning": it throws a
    [TypeError], whatever the candidate specifies. *)
Theorem C2_socket_mismatch_warning (build : BuildState) (part : ComponentData) :
  (forall mobo s m,
      type part = CPU ->
      JSObject.get build MOTHERBOARD = Some mobo ->
      socket_spec part = Some s -> socket_spec mobo = Some m -> s ≠ m ->
      ComponentList.getCompatibilityWarning build part
      = Returned (Some ("Socket Mismatch: " +:+ s +:+ " vs " +:+ m)))
  /\ (forall cpu m s,
        type part = MOTHERBOARD ->
        JSObject.get build CPU = Some cpu ->
        socket_spec part = Some m -> socket_spec cpu = Some s -> m ≠ s ->
        ComponentList.getCompatibilityWarning build part
        = Returned (Some ("Socket Mismatch: " +:+ m +:+ " vs " +:+ s)))
  /\ (forall other,
        counterpart build part = Some other ->
        is_Some (specs other) ->
        socket_spec part = None \/ socket_spec other = None
        \/ socket_spec part = socket_spec other ->
        ComponentList.getCompatibilityWarning build part = Returned None)
  /\ (forall other,
        counterpart build part = Some other ->
        specs other = None ->
        socket_spec other = None
        /\ ComponentList.getCompatibilityWarning build part
           = Thrown socket_TypeError).
Proof.
  rewrite getCompatibilityWarning_normal. split_and!.
  - intros mobo s m Ht Hget Hs Hm Hne. unfold counterpart.
    rewrite Ht, Hget, Hs, Hm.
    destruct (specs mobo) eqn:Hsp;
      [| by rewrite (socket_spec_no_specs _ Hsp) in Hm].
    by rewrite bool_decide_eq_true_2.
  - intros cpu m s Ht Hget Hm Hs Hne. unfold counterpart.
    rewrite Ht, Hget, Hs, Hm.
    destruct (specs cpu) eqn:Hsp;
      [| by rewrite (socket_spec_no_specs _ Hsp) in Hs].
    by rewrite bool_decide_eq_true_2.
  - intros other -> [sp ->] Hcase.
    destruct (socket_spec part) as [a|]; [| done].
    destruct (socket_spec other) as [b|]; [| done].
    destruct Hcase as [?|[?|[= ->]]]; try done.
    by rewrite bool_decide_eq_false_2 by (intros H; by apply H).
  - intros other -> Hsp. split; [by apply socket_spec_no_specs |].
    by rewrite Hsp.
Qed.

Lemma C2_socket_mismatch_witness :
  ComponentList.getCompatibilityWarning [(MOTHERBOARD, z790)] ryzen
  = Returned (Some "Socket Mismatch: AM5 vs LGA1700")
  /\ ComponentList.getCompatibilityWarning [(CPU, ryzen)] z790
     = Returned (Some "Socket Mismatch: LGA1700 vs AM5")
  /\ ComponentList.getCompatibilityWarning [(MOTHERBOARD, b650)] ryzen
     = Returned None
  /\ ComponentList.getCompatibilityWarning [(MOTHERBOARD, bare_board)] ryzen
     = Thrown socket_TypeError.
Proof.
  split_and!.
  - apply (proj1 (C2_socket_mismatch_warning [(MOTHERBOARD, z790)] ryzen)
             z790 "AM5" "LGA1700");
      [reflexivity | reflexivity | reflexivity | reflexivity | discriminate].
  - apply (proj1 (proj2 (C2_socket_mismatch_warning [(CPU, ryzen)] z790))
             ryzen "LGA1700" "AM5");
      [reflexivity | reflexivity | reflexivity | reflexivity | discriminate].
  - apply (proj1 (proj2 (proj2
             (C2_socket_mismatch_warning [(MOTHERBOARD, b650)] ryzen))) b650);
      [reflexivity | by eexists | right; right; reflexivity].
  - apply (proj2 (proj2 (proj2
             (C2_socket_mismatch_warning [(MOTHERBOARD, bare_board)] ryzen)))
             bare_board); reflexivity.
Defined.

(** The record without [specs] is one the page really holds: the catalog
    answer may leave [specs] out, the fetch passes the item through, and
    choosing its card installs it. *)
Example bare_board_reachable :
  geminiService.fetchComponents env_bare MOTHERBOARD "" = Returned [bare_board]
  /\ JSObject.get (App.build (App.handleAddPart bare_board App.initial))
       MOTHERBOARD
     = Some bare_board.
Proof. split; reflexivity. Qed.

(** C10, what the code does.  The local check never yields more than one
    warning: it answers with no warning or with a single socket-mismatch
    message, for a processor or motherboard candidate only, and it is
    decided by the candidate's category and socket and what the two
    installed records give for their socket, whatever else the build
    holds.  It does not always answer, though: when the slot the
    candidate is checked against holds a record without a [specs] object
    it throws a [TypeError], and only then. *)
Theorem C10_at_most_one_warning (build : BuildState) (part : ComponentData) :
  (ComponentList.getCompatibilityWarning build part = Returned None
   \/ (exists w,
         ComponentList.getCompatibilityWarning build part = Returned (Some w))
   \/ ComponentList.getCompatibilityWarning build part
      = Thrown socket_TypeError)
  /\ (forall w,
        ComponentList.getCompatibilityWarning build part = Returned (Some w) ->
        (type part = CPU \/ type part = MOTHERBOARD)
        /\ exists a b, w = "Socket Mismatch: " +:+ a +:+ " vs " +:+ b)
  /\ (forall build' part',
        type part' = type part ->
        JSObject.get (default [] (specs part')) "socket"
        = JSObject.get (default [] (specs part)) "socket" ->
        installed_socket build' MOTHERBOARD = installed_socket build MOTHERBOARD ->
        installed_socket build' CPU = installed_socket build CPU ->
        ComponentList.getCompatibilityWarning build' part'
        = ComponentList.getCompatibilityWarning build part)
  /\ ((exists e, ComponentList.getCompatibilityWarning build part = Thrown e)
      <-> exists other,
            counterpart build part = Some other /\ specs other = None).
Proof.
  split_and!.
  - rewrite getCompatibilityWarning_normal.
    destruct (counterpart build part) as [other|]; [| by left].
    destruct (specs other); [| by right; right].
    destruct (socket_spec part) as [s|]; [| by left].
    destruct (socket_spec other) as [m|]; [| by left].
    destruct (bool_decide (s ≠ m)); [right; left; by eexists | by left].
  - intros w. rewrite getCompatibilityWarning_normal. unfold counterpart.
    destruct (type part); try done;
      (destruct (JSObject.get build _) as [other|]; [| done]);
      (destruct (specs other); [| done]);
      (destruct (socket_spec part) as [s|]; [| done]);
      (destruct (socket_spec other) as [m|]; [| done]);
      (destruct (bool_decide (s ≠ m)); [| done]);
      intros [= <-]; (split; [tauto | eauto]).
  - intros build' part' Ht Hs Hm Hc.
    rewrite !getCompatibilityWarning_reads. by rewrite Ht, Hs, Hm, Hc.
  - rewrite getCompatibilityWarning_normal. split.
    + intros [e He]. destruct (counterpart build part) as [other|]; [| done].
      exists other. split; [done |].
      destruct (specs other); [| done].
      destruct (socket_spec part) as [s|]; [| done].
      destruct (socket_spec other) as [m|]; [| done].
      by destruct (bool_decide (s ≠ m)).
    + intros (other & -> & ->). by eexists.
Qed.

Lemma C10_at_most_one_warning_witness :
  ComponentList.getCompatibilityWarning
    [(MOTHERBOARD, z790); (RAM, ddr5); (PSU, psu650); (GPU, rtx)] ryzen
  = ComponentList.getCompatibilityWarning [(MOTHERBOARD, z790)] ryzen
  /\ exists e,
       ComponentList.getCompatibilityWarning [(CPU, bare_cpu); (RAM, ddr5)] b650
       = Thrown e.
Proof.
  split.
  - apply (proj1 (proj2 (proj2
             (C10_at_most_one_warning [(MOTHERBOARD, z790)] ryzen))));
      reflexivity.
  - apply (proj2 (proj2 (proj2 (proj2
             (C10_at_most_one_warning [(CPU, bare_cpu); (RAM, ddr5)] b650))))).
    exists bare_cpu. split; reflexivity.
Defined.

(** ** Category navigation *)

Lemma indexOf_order t :
  App.indexOf App.order t =
  match t with
  | CPU => 0 | MOTHERBOARD => 1 | RAM => 2 | GPU => 3
  | STORAGE => 4 | COOLER => 5 | PSU => 6 | CASE => 7
  end.
Proof. by destruct t. Qed.

(** The guarded read [order[currentIndex + 1]] is never [undefined]. *)
Lemma handleAddPart_index_defined t :
  (App.indexOf App.order t <? Z.of_nat (length App.order) - 1) = true ->
  is_Some (App.at_index App.order (App.indexOf App.order t + 1)).
Proof. destruct t; try done; by eexists. Qed.

(** C6. The first active category is the processor, the head of the
    canonical order (processor, motherboard, memory, graphics card,
    storage, cooler, power supply, case).  Adding a part moves the active
    category to the one that follows the part's category in that order,
    and leaves it as it was when the part is a case, the last one. *)
Theorem C6_auto_advance :
  App.activeCategory App.initial = CPU
  /\ App.order = [CPU; MOTHERBOARD; RAM; GPU; STORAGE; COOLER; PSU; CASE]
  /\ head App.order = Some (App.activeCategory App.initial)
  /\ last App.order = Some CASE
  /\ next_in_order CASE = None
  /\ forall (part : ComponentData) (s : App.State),
       App.activeCategory (App.handleAddPart part s)
       = default (App.activeCategory s) (next_in_order (type part))
       /\ App.activeCategory (App.handleAddPart part s)
          = match type part with
            | CPU => MOTHERBOARD
            | MOTHERBOARD => RAM
            | RAM => GPU
            | GPU => STORAGE
            | STORAGE => COOLER
            | COOLER => PSU
            | PSU => CASE
            | CASE => App.activeCategory s
            end.
Proof.
  split_and!; try reflexivity.
  intros part s. unfold App.handleAddPart.
  rewrite indexOf_order. by destruct (type part).
Qed.

(** ** The build store *)

Lemma build_handleAddPart part s :
  App.build (App.handleAddPart part s)
  = JSObject.set (App.build s) (type part) part.
Proof.
  unfold App.handleAddPart. destruct (_ <? _); [| done].
  by destruct (App.at_index _ _).
Qed.

Lemma build_handleRemovePart t s :
  App.build (App.handleRemovePart t s) = JSObject.delete (App.build s) t.
Proof. done. Qed.

Lemma elem_of_set {K V} `{EqDecision K} (o : list (K * V)) k v kv :
  kv ∈ JSObject.set o k v -> kv ∈ o \/ kv = (k, v).
Proof.
  induction o as [|[k0 v0] o IH]; simpl.
  - intros ->%list_elem_of_singleton. by right.
  - case_decide; rewrite !elem_of_cons; [tauto |].
    intros [->|Hin]; [tauto |]. destruct (IH Hin); tauto.
Qed.

Lemma elem_of_delete {K V} `{EqDecision K} (o : list (K * V)) k kv :
  kv ∈ JSObject.delete o k -> kv ∈ o.
Proof.
  induction o as [|[k0 v0] o IH]; simpl; [done |].
  case_decide; rewrite ?elem_of_cons; [tauto |].
  intros [->|Hin]; tauto.
Qed.

Lemma store_inv_empty : store_inv [].
Proof. split; [apply NoDup_nil_2 | apply Forall_nil_2]. Qed.

Lemma store_inv_set build part :
  store_inv build -> store_inv (JSObject.set build (type part) part).
Proof.
  intros [Hwf Hkey]. split; [by apply wf_set |].
  apply Forall_forall. intros kv [Hin| ->]%elem_of_set; [| done].
  by apply (proj1 (Forall_forall _ _) Hkey).
Qed.

Lemma store_inv_delete build t :
  store_inv build -> store_inv (JSObject.delete build t).
Proof.
  intros [Hwf Hkey]. split; [by apply wf_delete |].
  apply Forall_forall. intros kv Hin%elem_of_delete.
  by apply (proj1 (Forall_forall _ _) Hkey).
Qed.

Lemma foldl_inv {S E} (P : S -> Prop) (f : S -> E -> S) es s :
  (forall s e, P s -> P (f s e)) -> P s -> P (foldl f s es).
Proof.
  intros Hf. revert s. induction es as [|e es IH]; simpl; [done |].
  intros s Hs. apply IH. by apply Hf.
Qed.

Lemma store_inv_build_after ops : store_inv (build_after ops).
Proof.
  apply (foldl_inv (fun s => store_inv (App.build s)));
    [| apply store_inv_empty].
  intros s [part|t] Hs; cbn [apply_op].
  - rewrite build_handleAddPart. by apply store_inv_set.
  - rewrite build_handleRemovePart. by apply store_inv_delete.
Qed.

Lemma store_inv_step env p e :
  store_inv (App.build (App.ui p)) ->
  store_inv (App.build (App.ui (App.step env p e))).
Proof.
  intros Hp. destruct e; cbn; try done.
  - rewrite build_handleAddPart. by apply store_inv_set.
  - by apply store_inv_delete.
  - apply store_inv_empty.
  - destruct (App.inflight p !! i); [| done]. cbn.
    by destruct (geminiService.checkCompatibility env _).
Qed.

Lemma store_inv_run env es :
  store_inv (App.build (App.ui (App.run env App.start es))).
Proof.
  apply (foldl_inv (fun p => store_inv (App.build (App.ui p))));
    [intros; by apply store_inv_step | apply store_inv_empty].
Qed.

(** *** Binary64 addition of integers *)

Lemma digits2_pos_size p : digits2_pos p = Pos.size p.
Proof. induction p; simpl; congruence. Qed.

Lemma digits2_log2 p : Zpos (digits2_pos p) = Z.log2 (Zpos p) + 1.
Proof. rewrite digits2_pos_size. destruct p; simpl; lia. Qed.

Lemma digits2_mul_pow2 m q k :
  0 <= k -> Zpos m = Zpos q * 2 ^ k ->
  Zpos (digits2_pos m) = Zpos (digits2_pos q) + k.
Proof.
  intros Hk Hm. rewrite !digits2_log2, Hm, Z.log2_mul_pow2; lia.
Qed.

Lemma digits2_bound q n :
  0 < n -> Zpos q < 2 ^ n -> 1 <= Zpos (digits2_pos q) <= n.
Proof.
  intros Hn Hq. rewrite digits2_log2.
  pose proof (Z.log2_nonneg (Zpos q)).
  assert (Z.log2 (Zpos q) < n) by (apply Z.log2_lt_pow2; lia). lia.
Qed.

Lemma iter_xO m d : Zpos (Pos.iter xO m d) = Zpos m * 2 ^ Zpos d.
Proof.
  change (Pos.iter xO m d) with (shift_pos d m).
  rewrite shift_pos_correct, Z.mul_comm. reflexivity.
Qed.

Lemma shr_1_double m : shr_1 (exact_record (2 * m)) = exact_record m.
Proof. destruct m; reflexivity. Qed.

Lemma pow2_xO n : 2 ^ Zpos n~0 = 2 ^ Zpos n * 2 ^ Zpos n.
Proof. rewrite <- Z.pow_add_r by lia. f_equal. lia. Qed.

Lemma pow2_xI n : 2 ^ Zpos n~1 = 2 * (2 ^ Zpos n * 2 ^ Zpos n).
Proof.
  rewrite <- Z.pow_add_r, <- Z.pow_succ_r by lia. f_equal. lia.
Qed.

(** Shifting out [n] zero bits leaves the record exact. *)
Lemma iter_shr_1 n m :
  SpecFloat.iter_pos shr_1 n (exact_record (m * 2 ^ Zpos n)) = exact_record m.
Proof.
  revert m. induction n as [n IH|n IH|]; intros m; cbn [SpecFloat.iter_pos].
  - replace (m * 2 ^ Zpos n~1) with (2 * (m * 2 ^ Zpos n * 2 ^ Zpos n))
      by (rewrite pow2_xI; ring).
    rewrite shr_1_double, IH, IH. reflexivity.
  - replace (m * 2 ^ Zpos n~0) with (m * 2 ^ Zpos n * 2 ^ Zpos n)
      by (rewrite pow2_xO; ring).
    rewrite IH, IH. reflexivity.
  - rewrite Z.pow_1_r, Z.mul_comm. apply shr_1_double.
Qed.

Lemma fexp_small d :
  -1021 <= d -> fexp Float64.prec Float64.emax d = d - 53.
Proof. intros Hd. unfold fexp, emin, Float64.prec, Float64.emax. lia. Qed.

Lemma shr_fexp_exact (M P : positive) (E F : Z) :
  E <= F -> Zpos M = Zpos P * 2 ^ (F - E) ->
  fexp Float64.prec Float64.emax (Zpos (digits2_pos M) + E) = F ->
  shr_fexp Float64.prec Float64.emax (Zpos M) E loc_Exact
  = (exact_record (Zpos P), F).
Proof.
  intros HEF HM HF. unfold shr_fexp. cbn [Zdigits2 shr_record_of_loc].
  rewrite HF. unfold shr.
  destruct (F - E) as [|n|n] eqn:Hn; try lia.
  - rewrite Z.pow_0_r, Z.mul_1_r in HM. injection HM as ->.
    f_equal. lia.
  - fold (exact_record (Zpos M)). rewrite HM, iter_shr_1. f_equal. lia.
Qed.

Lemma binary_round_aux_exact s (M P : positive) (E F : Z) :
  shr_fexp Float64.prec Float64.emax (Zpos M) E loc_Exact
  = (exact_record (Zpos P), F) ->
  shr_fexp Float64.prec Float64.emax (Zpos P) F loc_Exact
  = (exact_record (Zpos P), F) ->
  F <= Float64.emax - Float64.prec ->
  binary_round_aux Float64.prec Float64.emax s (Zpos M) E loc_Exact
  = S754_finite s P F.
Proof.
  intros H1 H2 HF. unfold binary_round_aux. rewrite H1.
  cbn [exact_record shr_m loc_of_shr_record round_nearest_even].
  rewrite H2. cbn [exact_record shr_m].
  destruct (Z.leb_spec F (Float64.emax - Float64.prec)); [reflexivity | lia].
Qed.

Lemma shl_align_spec m e e' :
  (e' < e ->
   (shl_align m e e').2 = e'
   /\ Zpos (shl_align m e e').1 = Zpos m * 2 ^ (e - e'))
  /\ (e <= e' -> shl_align m e e' = (m, e)).
Proof.
  unfold shl_align. destruct (e' - e) as [|d|d] eqn:Hd; split; intros H;
    try lia; try reflexivity.
  cbn [fst snd]. split; [reflexivity |]. rewrite iter_xO. f_equal. f_equal. lia.
Qed.

Lemma fst_shl_align m e e' :
  e' <= e -> Zpos (shl_align m e e').1 = Zpos m * 2 ^ (e - e').
Proof.
  intros He. destruct (shl_align_spec m e e') as [Hlt Hge].
  destruct (Z.lt_ge_cases e' e) as [H|H].
  - apply (Hlt H).
  - rewrite (Hge H). cbn [fst]. replace (e - e') with 0 by lia.
    rewrite Z.pow_0_r. lia.
Qed.

(** Rounding a mantissa that carries an integer below 2^53 at a
    non-positive exponent gives the representation of that integer. *)
Lemma binary_round_value s (m q : positive) (e : Z) :
  e <= 0 -> Zpos m = Zpos q * 2 ^ (- e) -> Zpos q < 2 ^ 53 ->
  binary_round Float64.prec Float64.emax s m e = canon s q.
Proof.
  intros He Hm Hq.
  pose proof (digits2_bound q 53 ltac:(lia) Hq) as Hdq.
  pose proof (digits2_mul_pow2 m q (- e) ltac:(lia) Hm) as Hdm.
  set (dq := Zpos (digits2_pos q)) in *.
  set (F := dq - 53).
  assert (0 < Zpos q * 2 ^ (53 - dq)) as Hpos
    by (apply Z.mul_pos_pos; [lia | apply Z.pow_pos_nonneg; lia]).
  set (P := Z.to_pos (Zpos q * 2 ^ (53 - dq))).
  assert (Zpos P = Zpos q * 2 ^ (53 - dq)) as HP by (unfold P; lia).
  assert (Zpos (digits2_pos P) = 53) as HdP.
  { rewrite (digits2_mul_pow2 P q (53 - dq)); [fold dq; lia | lia | exact HP]. }
  assert (shr_fexp Float64.prec Float64.emax (Zpos P) F loc_Exact
          = (exact_record (Zpos P), F)) as HPP.
  { apply shr_fexp_exact; [lia | |].
    - rewrite Z.sub_diag, Z.pow_0_r. lia.
    - rewrite HdP, fexp_small; unfold F; lia. }
  unfold canon. fold dq. fold P. fold F.
  unfold binary_round. rewrite Hdm.
  replace (dq + - e + e) with dq by lia.
  rewrite fexp_small by lia. fold F.
  destruct (shl_align_spec m e F) as [Hlt Hge].
  destruct (Z.lt_ge_cases F e) as [HFe|HFe].
  - destruct (Hlt HFe) as [Hsnd Hfst].
    destruct (shl_align m e F) as [mz ez]. cbn [fst snd] in *. subst ez.
    assert (mz = P) as ->.
    { apply Pos2Z.inj.
      rewrite Hfst, HP, Hm, <- Z.mul_assoc, <- Z.pow_add_r by lia.
      f_equal. f_equal. unfold F. lia. }
    apply binary_round_aux_exact;
      [exact HPP | exact HPP | unfold F, Float64.emax, Float64.prec; lia].
  - rewrite (Hge HFe).
    apply binary_round_aux_exact;
      [| exact HPP | unfold F, Float64.emax, Float64.prec; lia].
    apply shr_fexp_exact; [lia | |].
    + rewrite HP, Hm, <- Z.mul_assoc, <- Z.pow_add_r by (unfold F; lia).
      f_equal. f_equal. unfold F. lia.
    + rewrite Hdm. replace (dq + - e + e) with dq by lia.
      rewrite fexp_small by lia. reflexivity.
Qed.

Lemma ofZ_signed s q :
  Zpos q < 2 ^ 53 -> Float64.ofZ (cond_Zopp s (Zpos q)) = canon s q.
Proof.
  intros Hq. unfold Float64.ofZ.
  destruct s; cbn [cond_Zopp Z.opp binary_normalize];
    apply binary_round_value; try lia; rewrite Z.pow_0_r; lia.
Qed.

Lemma cond_Zopp_mul s a b : cond_Zopp s a * b = cond_Zopp s (a * b).
Proof. destruct s; cbn [cond_Zopp]; lia. Qed.

Lemma add_canon sa sb a b :
  Zpos a + Zpos b < 2 ^ 53 ->
  Float64.add (canon sa a) (canon sb b)
  = Float64.ofZ (cond_Zopp sa (Zpos a) + cond_Zopp sb (Zpos b)).
Proof.
  intros Hab.
  pose proof (digits2_bound a 53 ltac:(lia) ltac:(lia)) as Hda.
  pose proof (digits2_bound b 53 ltac:(lia) ltac:(lia)) as Hdb.
  unfold Float64.add, canon. cbn [SFadd].
  set (Fa := Zpos (digits2_pos a) - 53).
  set (Fb := Zpos (digits2_pos b) - 53).
  set (Pa := Z.to_pos (Zpos a * 2 ^ (53 - Zpos (digits2_pos a)))).
  set (Pb := Z.to_pos (Zpos b * 2 ^ (53 - Zpos (digits2_pos b)))).
  assert (Zpos Pa = Zpos a * 2 ^ (- Fa)) as HPa.
  { unfold Pa, Fa. replace (- (Zpos (digits2_pos a) - 53))
      with (53 - Zpos (digits2_pos a)) by lia.
    assert (0 < Zpos a * 2 ^ (53 - Zpos (digits2_pos a)))
      by (apply Z.mul_pos_pos; [lia | apply Z.pow_pos_nonneg; lia]).
    lia. }
  assert (Zpos Pb = Zpos b * 2 ^ (- Fb)) as HPb.
  { unfold Pb, Fb. replace (- (Zpos (digits2_pos b) - 53))
      with (53 - Zpos (digits2_pos b)) by lia.
    assert (0 < Zpos b * 2 ^ (53 - Zpos (digits2_pos b)))
      by (apply Z.mul_pos_pos; [lia | apply Z.pow_pos_nonneg; lia]).
    lia. }
  set (ez := Z.min Fa Fb).
  assert (ez <= 0 /\ ez <= Fa /\ ez <= Fb) as (Hez & HezA & HezB)
    by (unfold ez, Fa, Fb; lia).
  assert (Zpos (fst (shl_align Pa Fa ez)) = Zpos a * 2 ^ (- ez)) as ->.
  { rewrite fst_shl_align, HPa, <- Z.mul_assoc, <- Z.pow_add_r
      by (unfold Fa; lia).
    f_equal. f_equal. lia. }
  assert (Zpos (fst (shl_align Pb Fb ez)) = Zpos b * 2 ^ (- ez)) as ->.
  { rewrite fst_shl_align, HPb, <- Z.mul_assoc, <- Z.pow_add_r
      by (unfold Fb; lia).
    f_equal. f_equal. lia. }
  rewrite <- !cond_Zopp_mul, <- Z.mul_add_distr_r.
  set (z := cond_Zopp sa (Zpos a) + cond_Zopp sb (Zpos b)).
  assert (Z.abs z < 2 ^ 53) as Hz
    by (unfold z; destruct sa, sb; cbn [cond_Zopp]; lia).
  assert (0 < 2 ^ (- ez)) as Hpow by (apply Z.pow_pos_nonneg; lia).
  destruct z as [|q|q] eqn:Hzq.
  - reflexivity.
  - destruct (Zpos q * 2 ^ (- ez)) as [|m|m] eqn:Hm; try lia.
    cbn [binary_normalize].
    rewrite (binary_round_value false m q ez); [| lia | lia | lia].
    symmetry. apply (ofZ_signed false). lia.
  - destruct (Zneg q * 2 ^ (- ez)) as [|m|m] eqn:Hm; try lia.
    cbn [binary_normalize].
    rewrite (binary_round_value true m q ez); [| lia | lia | lia].
    symmetry. apply (ofZ_signed true). lia.
Qed.

(** Binary64 addition is exact on integers whose magnitudes add up to
    less than 2^53. *)
Lemma add_ofZ a b :
  Z.abs a + Z.abs b < 2 ^ 53 ->
  Float64.add (Float64.ofZ a) (Float64.ofZ b) = Float64.ofZ (a + b).
Proof.
  intros Hab.
  destruct a as [|a|a], b as [|b|b]; try reflexivity.
  - change (Zpos b) with (cond_Zopp false (Zpos b)).
    rewrite Z.add_0_l, ofZ_signed by lia. reflexivity.
  - change (Zneg b) with (cond_Zopp true (Zpos b)).
    rewrite Z.add_0_l, ofZ_signed by lia. reflexivity.
  - change (Zpos a) with (cond_Zopp false (Zpos a)).
    rewrite Z.add_0_r, ofZ_signed by lia. reflexivity.
  - change (Zpos a) with (cond_Zopp false (Zpos a)) at 1.
    change (Zpos b) with (cond_Zopp false (Zpos b)) at 1.
    rewrite !ofZ_signed by lia. apply add_canon. lia.
  - change (Zpos a) with (cond_Zopp false (Zpos a)) at 1.
    change (Zneg b) with (cond_Zopp true (Zpos b)) at 1.
    rewrite !ofZ_signed by lia. apply add_canon. lia.
  - change (Zneg a) with (cond_Zopp true (Zpos a)).
    rewrite Z.add_0_r, ofZ_signed by lia. reflexivity.
  - change (Zneg a) with (cond_Zopp true (Zpos a)) at 1.
    change (Zpos b) with (cond_Zopp false (Zpos b)) at 1.
    rewrite !ofZ_signed by lia. apply add_canon. lia.
  - change (Zneg a) with (cond_Zopp true (Zpos a)) at 1.
    change (Zneg b) with (cond_Zopp true (Zpos b)) at 1.
    rewrite !ofZ_signed by lia. apply add_canon. lia.
Qed.

(** [price || 0] is the price itself when the price is a whole number. *)
Lemma or_zero_whole x : whole x -> Float64.or x Float64.zero = x.
Proof.
  unfold whole, Float64.or. destruct x as [s|s| |s m e]; cbn; try done.
Qed.

(** *** Totals *)

Lemma activeParts_values build : App.activeParts build = JSObject.values build.
Proof.
  unfold App.activeParts. induction (JSObject.values build) as [|c l IH];
    [done |]. rewrite filter_cons_True by done. by rewrite IH.
Qed.

Lemma Zsum_abs_nonneg {A} (f : A -> Z) (l : list A) :
  0 <= Zsum ((fun x => Z.abs (f x)) <$> l).
Proof.
  unfold Zsum. induction l as [|x l IH]; cbn [fmap list_fmap foldr]; lia.
Qed.

(** The total, as the fold of [reduce]. *)
Lemma totalPrice_fold build :
  App.totalPrice build
  = foldl (fun sum part =>
             Float64.add sum (Float64.or (price part) Float64.zero))
          Float64.zero (JSObject.values build).
Proof. unfold App.totalPrice. by rewrite activeParts_values. Qed.

Lemma foldl_fmap_l {A B C} (f : C -> B -> C) (g : A -> B) (c : C)
    (l : list A) :
  foldl f c (g <$> l) = foldl (fun c x => f c (g x)) c l.
Proof. revert c. induction l as [|x l IH]; intros c; cbn; [done | apply IH]. Qed.

(** On whole-number prices the fold adds the integers exactly. *)
Lemma foldl_add_whole (l : list ComponentData) (acc : Z) :
  Forall (fun c => whole (price c)) l ->
  Z.abs acc + Zsum ((fun c => Z.abs (rupees c)) <$> l) < 2 ^ 53 ->
  foldl (fun sum part =>
           Float64.add sum (Float64.or (price part) Float64.zero))
        (Float64.ofZ acc) l
  = Float64.ofZ (acc + Zsum (rupees <$> l)).
Proof.
  unfold Zsum. revert acc.
  induction l as [|c l IH]; intros acc Hwhole Hbound.
  - cbn. by rewrite Z.add_0_r.
  - apply Forall_cons in Hwhole as [Hc Hl].
    cbn [fmap list_fmap foldr foldl] in *.
    pose proof (Zsum_abs_nonneg rupees l) as Hnn. unfold Zsum in Hnn.
    assert (Float64.or (price c) Float64.zero = Float64.ofZ (rupees c)) as ->
      by (rewrite or_zero_whole by done; exact Hc).
    rewrite add_ofZ by lia.
    rewrite (IH _ Hl) by lia. f_equal. lia.
Qed.

#[local] Instance Zsum_Permutation : Proper ((≡ₚ) ==> (=)) Zsum.
Proof.
  intros l k Hp. induction Hp; simpl; unfold Zsum in *; simpl; lia.
Qed.

Lemma omap_cons_match {A B} (f : A -> option B) (x : A) (l : list A) :
  omap f (x :: l)
  = match f x with Some y => y :: omap f l | None => omap f l end.
Proof. done. Qed.

Lemma omap_entry_ext (b b' : BuildState) (l : list PartType) :
  (forall t, t ∈ l -> JSObject.get b t = JSObject.get b' t) ->
  omap (entry b) l = omap (entry b') l.
Proof.
  induction l as [|t l IH]; intros Hl; [done |].
  rewrite !omap_cons_match.
  assert (entry b t = entry b' t) as ->
    by (unfold entry; by rewrite (Hl t) by left).
  rewrite IH; [done |]. intros t' Ht'. apply Hl. by right.
Qed.

Lemma wf_entries (build : BuildState) :
  JSObject.wf build -> build = omap (entry build) (JSObject.keys build).
Proof.
  unfold JSObject.wf, JSObject.keys.
  induction build as [|[k v] o IH]; [done |].
  cbn [fmap list_fmap fst]. intros [Hk Hwf]%NoDup_cons.
  rewrite omap_cons_match.
  assert (entry ((k, v) :: o) k = Some (k, v)) as ->
    by (unfold entry; cbn [JSObject.get]; by rewrite decide_True).
  f_equal. rewrite (IH Hwf) at 1. apply omap_entry_ext.
  intros t Ht. cbn [JSObject.get]. rewrite decide_False; [done |].
  by intros ->.
Qed.

Lemma NoDup_PartType_values : NoDup PartType_values.
Proof. apply (bool_decide_unpack _). by vm_compute. Qed.

Lemma keys_occupied (build : BuildState) :
  JSObject.wf build -> JSObject.keys build ≡ₚ occupied build.
Proof.
  intros Hwf. apply NoDup_Permutation; [done | |].
  - apply NoDup_filter, NoDup_PartType_values.
  - intros t. rewrite elem_of_occupied. unfold filled.
    rewrite <- not_eq_None_Some, get_None_keys.
    destruct (decide (t ∈ JSObject.keys build)); tauto.
Qed.

Lemma omap_entry_occupied (build : BuildState) :
  omap (entry build) (occupied build) = omap (entry build) PartType_values.
Proof.
  unfold occupied. induction PartType_values as [|t l IH]; [done |].
  destruct (truthy_obj (JSObject.get build t)) eqn:Ht.
  - rewrite filter_cons_True by (by rewrite Ht).
    rewrite !omap_cons_match. by rewrite IH.
  - rewrite filter_cons_False by (rewrite Ht; cbn; tauto).
    rewrite omap_cons_match, IH.
    assert (entry build t = None) as ->; [| done].
    unfold entry. by destruct (JSObject.get build t).
Qed.

Lemma entries_Permutation (build : BuildState) :
  JSObject.wf build -> build ≡ₚ omap (entry build) PartType_values.
Proof.
  intros Hwf. rewrite (wf_entries build Hwf) at 1.
  rewrite <- omap_entry_occupied. by rewrite (keys_occupied build Hwf).
Qed.

Lemma Zsum_entries (f : ComponentData -> Z) (build : BuildState)
    (l : list PartType) :
  Zsum (f <$> (omap (entry build) l).*2)
  = Zsum ((fun t => from_option f 0 (JSObject.get build t)) <$> l).
Proof.
  induction l as [|t l IH]; [done |].
  rewrite omap_cons_match, fmap_cons.
  assert (entry build t = (fun c => (t, c)) <$> JSObject.get build t) as ->
    by (unfold entry; by destruct (JSObject.get build t)).
  unfold Zsum in *.
  destruct (JSObject.get build t) as [c|]; cbn [fmap option_fmap option_map
    from_option]; rewrite ?fmap_cons; cbn [foldr snd]; rewrite IH; lia.
Qed.

(** A sum over the stored records is a sum over the eight slots. *)
Lemma Zsum_slots (f : ComponentData -> Z) (build : BuildState) :
  JSObject.wf build ->
  Zsum (f <$> JSObject.values build)
  = Zsum ((fun t => from_option f 0 (JSObject.get build t)) <$> PartType_values).
Proof.
  intros Hwf. rewrite <- Zsum_entries. unfold JSObject.values.
  by rewrite <- (entries_Permutation build Hwf).
Qed.

Lemma whole_prices_values (build : BuildState) :
  JSObject.wf build -> whole_prices build ->
  Forall (fun c => whole (price c)) (JSObject.values build)
  /\ Zsum ((fun c => Z.abs (rupees c)) <$> JSObject.values build) < 2 ^ 53.
Proof.
  intros Hwf [Hwhole Hbound]. split.
  - apply Forall_forall. intros c Hc.
    apply list_elem_of_fmap in Hc as ([k c'] & -> & Hkc).
    apply (Hwhole k). by apply elem_of_get.
  - rewrite (Zsum_slots _ build Hwf).
    erewrite list_fmap_ext; [exact Hbound |].
    intros _ t _. unfold slot_rupees. by destruct (JSObject.get build t).
Qed.

(** On whole-number prices the total is the exact sum. *)
Lemma totalPrice_whole (build : BuildState) :
  JSObject.wf build -> whole_prices build ->
  App.totalPrice build = Float64.ofZ (price_sum build).
Proof.
  intros Hwf Hprices.
  destruct (whole_prices_values build Hwf Hprices) as [Hwhole Hbound].
  rewrite totalPrice_fold.
  change Float64.zero with (Float64.ofZ 0).
  rewrite foldl_add_whole by (cbn [Z.abs]; done || lia).
  rewrite Z.add_0_l. f_equal. apply (Zsum_slots rupees build Hwf).
Qed.

Lemma filledCount_occupied (build : BuildState) :
  JSObject.wf build -> App.filledCount build = length (occupied build).
Proof.
  intros Hwf. unfold App.filledCount.
  rewrite activeParts_values. unfold JSObject.values.
  rewrite length_fmap, <- (length_fmap fst).
  apply Permutation_length, (keys_occupied build Hwf).
Qed.

Lemma price_sum_ext (b b' : BuildState) :
  (forall t, JSObject.get b' t = JSObject.get b t) ->
  price_sum b' = price_sum b /\ occupied b' = occupied b
  /\ (whole_prices b -> whole_prices b').
Proof.
  intros Hget. unfold price_sum, occupied, whole_prices, slot_rupees.
  split_and!.
  - f_equal. apply list_fmap_ext. intros _ t _. by rewrite Hget.
  - apply list_filter_iff. intros t. by rewrite Hget.
  - intros [Hwhole Hbound]. split.
    + intros t c. rewrite Hget. apply Hwhole.
    + erewrite list_fmap_ext; [exact Hbound |].
      intros _ t _. cbv beta. by rewrite Hget.
Qed.

(** C5, as amended.  After any sequence of slot operations the number of
    parts shown is the number of distinct categories that are occupied,
    and the total is the binary64 sum of the prices held in the occupied
    slots, added in the order the build object enumerates them, 0 for the
    empty build.  When the prices are whole numbers whose magnitudes add
    up to less than 2^53 the total is their exact sum, and two sequences
    that end in the same occupancy give identical totals; the counts are
    identical whatever the prices. *)
Theorem C5_derived_totals (ops : list op) :
  App.filledCount (build_after ops) = length (occupied (build_after ops))
  /\ NoDup (occupied (build_after ops))
  /\ App.totalPrice (build_after ops)
     = float_sum ((fun c => Float64.or (price c) Float64.zero)
                    <$> JSObject.values (build_after ops))
  /\ (whole_prices (build_after ops) ->
        App.totalPrice (build_after ops)
        = Float64.ofZ (price_sum (build_after ops))
        /\ forall ops',
             (forall t, JSObject.get (build_after ops') t
                        = JSObject.get (build_after ops) t) ->
             App.totalPrice (build_after ops')
             = App.totalPrice (build_after ops))
  /\ (forall ops',
        (forall t, JSObject.get (build_after ops') t
                   = JSObject.get (build_after ops) t) ->
        App.filledCount (build_after ops')
        = App.filledCount (build_after ops))
  /\ App.totalPrice (build_after []) = Float64.zero
  /\ App.filledCount (build_after []) = 0%nat.
Proof.
  pose proof (store_inv_build_after ops) as [Hwf _].
  split_and!.
  - by apply filledCount_occupied.
  - apply NoDup_filter, NoDup_PartType_values.
  - rewrite totalPrice_fold. unfold float_sum. by rewrite foldl_fmap_l.
  - intros Hprices. split; [by apply totalPrice_whole |].
    intros ops' Hsame.
    pose proof (store_inv_build_after ops') as [Hwf' _].
    destruct (price_sum_ext _ _ Hsame) as (Hsum & _ & Hprices').
    rewrite !totalPrice_whole by auto. by rewrite Hsum.
  - intros ops' Hsame.
    pose proof (store_inv_build_after ops') as [Hwf' _].
    destruct (price_sum_ext _ _ Hsame) as (_ & Hocc & _).
    rewrite !filledCount_occupied by done. by rewrite Hocc.
  - reflexivity.
  - reflexivity.
Qed.

Lemma C5_derived_totals_witness :
  App.totalPrice (build_after [setSlot ryzen; setSlot b650; setSlot ddr5])
  = Float64.ofZ (18999 + 14500 + 5200)
  /\ App.totalPrice
       (build_after [setSlot ddr5; setSlot core_i5; setSlot b650;
                     clearSlot GPU; setSlot ryzen])
     = App.totalPrice (build_after [setSlot ryzen; setSlot b650; setSlot ddr5]).
Proof.
  assert (whole_prices (build_after [setSlot ryzen; setSlot b650; setSlot ddr5]))
    as Hprices.
  { split; [| by vm_compute].
    intros t c. destruct t; cbn; intros [= <-]; by vm_compute. }
  destruct (proj1 (proj2 (proj2 (proj2
              (C5_derived_totals [setSlot ryzen; setSlot b650; setSlot ddr5]))))
              Hprices) as [Htotal Hsame].
  split.
  - exact Htotal.
  - apply Hsame. intros t. destruct t; reflexivity.
Defined.

(** C5 as first stated fails: with prices 18999.99, 14500.1 and 29500.5
    the same three parts give the total 63000.590000000004 when they are
    added processor first, and 63000.59 when the processor is added
    last. *)
Lemma C5_fractional_prices_counterexample :
  JSObject.get
    (build_after [setSlot ryzen_paise; setSlot b650_paise; setSlot rtx_paise])
    <$> PartType_values
  = JSObject.get
      (build_after [setSlot b650_paise; setSlot rtx_paise; setSlot ryzen_paise])
      <$> PartType_values
  /\ App.totalPrice
       (build_after [setSlot ryzen_paise; setSlot b650_paise; setSlot rtx_paise])
     = S754_finite false 8658735157718549 (-37)
  /\ App.totalPrice
       (build_after [setSlot b650_paise; setSlot rtx_paise; setSlot ryzen_paise])
     = S754_finite false 8658735157718548 (-37)
  /\ Float64.decimal 6300059 2 = S754_finite false 8658735157718548 (-37)
  /\ App.totalPrice
       (build_after [setSlot ryzen_paise; setSlot b650_paise; setSlot rtx_paise])
     <> App.totalPrice
          (build_after [setSlot b650_paise; setSlot rtx_paise; setSlot ryzen_paise]).
Proof.
  split_and!; [by vm_compute | by vm_compute | by vm_compute | by vm_compute |].
  vm_compute. discriminate.
Qed.

Example totalPrice_three_parts :
  App.totalPrice (build_after [setSlot ryzen; setSlot b650; setSlot ddr5])
  = Float64.ofZ 38699
  /\ App.filledCount (build_after [setSlot ryzen; setSlot b650; setSlot ddr5])
     = 3%nat.
Proof. by vm_compute. Qed.

(** ** The catalog *)

Lemma fetchComponents_returns env category query :
  exists items,
    geminiService.fetchComponents env category query = Returned items
    /\ Forall (fun c => type c = category) items.
Proof.
  unfold geminiService.fetchComponents, try_catch.
  destruct (geminiService.getAI env) as [[]|e]; cbn;
    [| eexists; split; [done | constructor]].
  destruct (geminiService.generateContent env _) as [response|e]; cbn;
    [| eexists; split; [done | constructor]].
  destruct (truthy_opt_string _); cbn;
    [| eexists; split; [done | constructor]].
  destruct (geminiService.JSON_parse_catalog env _) as [[items|]|e]; cbn;
    try (eexists; split; [done | constructor]).
  eexists; split; [done |]. apply Forall_fmap, Forall_forall. by intros.
Qed.

Example fetchComponents_normalises :
  geminiService.fetchComponents env_loose CPU "" = Returned [ryzen].
Proof. reflexivity. Qed.

(** C8. Whatever the provider wrote in the [type] field, every record
    the catalog fetch returns carries the requested category; adding a
    part stores it under the key of its own category and touches no other
    key; hence in every build state the page can reach each category has
    at most one record and each stored record's category equals its key. *)
Theorem C8_category_key_invariant :
  (forall env category query,
      exists items,
        geminiService.fetchComponents env category query = Returned items
        /\ Forall (fun c => type c = category) items)
  /\ (forall part s,
        JSObject.get (App.build (App.handleAddPart part s)) (type part)
        = Some part
        /\ forall k, k ≠ type part ->
             JSObject.get (App.build (App.handleAddPart part s)) k
             = JSObject.get (App.build s) k)
  /\ (forall env es,
        JSObject.wf (App.build (App.ui (App.run env App.start es)))
        /\ keyed_by_category (App.build (App.ui (App.run env App.start es)))
        /\ forall k v,
             JSObject.get (App.build (App.ui (App.run env App.start es))) k
             = Some v -> type v = k).
Proof.
  split_and!.
  - apply fetchComponents_returns.
  - intros part s. rewrite build_handleAddPart. split.
    + rewrite get_set. by rewrite decide_True.
    + intros k Hk. rewrite get_set. by rewrite decide_False.
  - intros env es. destruct (store_inv_run env es) as [Hwf Hkey].
    split_and!; [done | done |].
    intros k v Hget%get_Some_elem_of.
    by apply (proj1 (Forall_forall _ _) Hkey (k, v)).
Qed.

Lemma C8_category_key_witness :
  JSObject.get (App.build (App.handleAddPart ryzen App.initial)) RAM = None
  /\ type ryzen = CPU.
Proof.
  split.
  - apply (proj2 (proj1 (proj2 C8_category_key_invariant) ryzen App.initial)).
    discriminate.
  - apply (proj2 (proj2 (proj2 C8_category_key_invariant)
                   env_offline [App.AddPart ryzen])).
    reflexivity.
Defined.

Lemma fetchComponents_provider_throws env category query :
  (exists e, geminiService.getAI env = Thrown e)
  \/ (exists e, geminiService.generateContent env
                  (geminiService.CatalogRequest category query) = Thrown e) ->
  geminiService.fetchComponents env category query = Returned [].
Proof.
  unfold geminiService.fetchComponents, try_catch.
  intros [[e ->]|[e He]]; [done |].
  destruct (geminiService.getAI env) as [[]|e']; cbn; [| done].
  by rewrite He.
Qed.

(** The error message of the list is never set by [loadItems], because
    the promise of [fetchComponents] never rejects. *)
Lemma loadItems_error_None env category s :
  ComponentList.error (ComponentList.loadItems env category s) = None.
Proof.
  unfold ComponentList.loadItems.
  destruct (fetchComponents_returns env category
              (ComponentList.search (ComponentList.loadItems_begin s)))
    as (items & -> & _).
  done.
Qed.

(** C9, what the code does.  When the provider throws, [fetchComponents]
    swallows the failure and resolves to an empty list, so the list shows
    "No parts found." with no error message and no Retry button. *)
Theorem C9_fetch_failure_shows_empty_list
    (env : geminiService.Env) (category : PartType)
    (s : ComponentList.State) (build : BuildState) :
  (exists e, geminiService.getAI env = Thrown e)
  \/ (exists e, geminiService.generateContent env
                  (geminiService.CatalogRequest category (ComponentList.search s))
                = Thrown e) ->
  ComponentList.error (ComponentList.loadItems env category s) = None
  /\ ComponentList.items (ComponentList.loadItems env category s) = []
  /\ ComponentList.render build (ComponentList.loadItems env category s)
     = Returned ComponentList.NoPartsFound.
Proof.
  intros Hthrows. unfold ComponentList.loadItems. cbn [ComponentList.search
    ComponentList.loadItems_begin].
  by rewrite (fetchComponents_provider_throws _ _ _ Hthrows).
Qed.

(** Had the promise rejected, the list would show the message with its
    Retry button. *)
Lemma loadItems_settle_rejection build e s :
  ComponentList.render build
    (ComponentList.loadItems_settle (Thrown e) (ComponentList.loadItems_begin s))
  = Returned (ComponentList.ErrorWithRetry
                "Failed to load components. Please check API Key.").
Proof. reflexivity. Qed.

Lemma C9_fetch_failure_witness :
  ComponentList.render [] (ComponentList.loadItems env_offline CPU ComponentList.initial)
  = Returned ComponentList.NoPartsFound.
Proof.
  apply (C9_fetch_failure_shows_empty_list env_offline CPU ComponentList.initial []).
  right. exists "TypeError: fetch failed". reflexivity.
Defined.

(** ** The analysis *)

Lemma checkCompatibility_returns env build :
  exists j, geminiService.checkCompatibility env build = Returned j.
Proof.
  unfold geminiService.checkCompatibility, try_catch.
  destruct (_ ≫= _); eauto.
Qed.

(** C3, as amended.  The analysis never propagates an error.  It returns
    exactly the fallback (compatible, the single issue "Could not verify
    compatibility (AI Error)", no notes, wattage 0, bottleneck "Unknown",
    score 0) when the client cannot be obtained, the request throws, the
    answer has no text, or the text does not parse.  A text that parses
    is returned as parsed, whatever its shape. *)
Theorem C3_fallback_on_failure (env : geminiService.Env) (build : BuildState) :
  (exists j, geminiService.checkCompatibility env build = Returned j)
  /\ as_CompatibilityResult geminiService.fallback
     = Some {| isCompatible := true;
               issues := ["Could not verify compatibility (AI Error)"];
               notes := []; estimatedWattage := 0;
               bottleneck := "Unknown"; aiScore := 0 |}
  /\ (forall e, geminiService.getAI env = Thrown e ->
        geminiService.checkCompatibility env build
        = Returned geminiService.fallback)
  /\ (forall e,
        geminiService.generateContent env (geminiService.AnalysisRequest build)
        = Thrown e ->
        geminiService.checkCompatibility env build
        = Returned geminiService.fallback)
  /\ (forall response,
        geminiService.generateContent env (geminiService.AnalysisRequest build)
        = Returned response ->
        geminiService.text response = None \/ geminiService.text response = Some "" ->
        geminiService.checkCompatibility env build
        = Returned geminiService.fallback)
  /\ (forall response txt e,
        geminiService.generateContent env (geminiService.AnalysisRequest build)
        = Returned response ->
        geminiService.text response = Some txt ->
        geminiService.JSON_parse env txt = Thrown e ->
        geminiService.checkCompatibility env build
        = Returned geminiService.fallback)
  /\ (forall response txt j,
        geminiService.getAI env = Returned () ->
        geminiService.generateContent env (geminiService.AnalysisRequest build)
        = Returned response ->
        geminiService.text response = Some txt -> txt ≠ "" ->
        geminiService.JSON_parse env txt = Returned j ->
        geminiService.checkCompatibility env build = Returned j).
Proof.
  split; [apply checkCompatibility_returns |].
  split; [reflexivity |].
  unfold geminiService.checkCompatibility, try_catch.
  split_and!.
  - by intros e ->.
  - intros e He. destruct (geminiService.getAI env) as [[]|]; cbn; [| done].
    by rewrite He.
  - intros response He Htext.
    destruct (geminiService.getAI env) as [[]|]; cbn; [| done].
    rewrite He. cbn. by destruct Htext as [-> | ->].
  - intros response txt e He Htext Hparse.
    destruct (geminiService.getAI env) as [[]|]; cbn; [| done].
    rewrite He. cbn. rewrite Htext. cbn.
    destruct (truthy_string txt); [by rewrite Hparse | done].
  - intros response txt j -> He Htext Hne Hparse. cbn.
    rewrite He. cbn. rewrite Htext. cbn.
    unfold truthy_string. rewrite (proj2 (String.eqb_neq txt "") Hne).
    cbn. by rewrite Hparse.
Qed.

Lemma C3_fallback_witness :
  geminiService.checkCompatibility env_offline [(CPU, ryzen)]
  = Returned geminiService.fallback.
Proof.
  apply (proj1 (proj2 (proj2 (proj2
           (C3_fallback_on_failure env_offline [(CPU, ryzen)]))))
           "TypeError: fetch failed").
  reflexivity.
Defined.

(** C3 as first stated fails: an answer that parses but is not a
    well-formed result is returned as it is, not replaced by the
    fallback. *)
Lemma C3_ill_formed_answer_counterexample :
  well_formed_answer env_empty_object [(CPU, ryzen)] = None
  /\ geminiService.checkCompatibility env_empty_object [(CPU, ryzen)]
     = Returned (JObject [])
  /\ geminiService.checkCompatibility env_empty_object [(CPU, ryzen)]
     <> Returned geminiService.fallback.
Proof. split_and!; [reflexivity | reflexivity | discriminate]. Qed.

(** ** Analysis requests in flight *)

Lemma analysis_settles env p i snapshot :
  App.inflight p !! i = Some snapshot ->
  exists j,
    geminiService.checkCompatibility env snapshot = Returned j
    /\ App.ui (App.step env p (App.AnalysisSettles i))
       = App.setAnalyzing false (App.setAnalysis (Some j) (App.ui p))
    /\ App.inflight (App.step env p (App.AnalysisSettles i))
       = delete i (App.inflight p).
Proof.
  intros Hi. destruct (checkCompatibility_returns env snapshot) as [j Hj].
  exists j. split; [done |]. cbn. rewrite Hi. cbn. by rewrite Hj.
Qed.

(** C4, as amended.  A response is stored and shown whenever it arrives,
    whether or not a newer request has been started since.  With two
    requests in flight, the older for build [A] and the newer for build
    [B], the result shown after both have completed is that of the
    response that arrived last: the result for [B] when the responses
    arrive in request order, and the result for the superseded [A] when
    the response for [B] arrives first. *)
Theorem C4_last_response_wins (env : geminiService.Env) (p : App.Page)
    (A B : BuildState) :
  App.inflight p = [A; B] ->
  exists jA jB,
    geminiService.checkCompatibility env A = Returned jA
    /\ geminiService.checkCompatibility env B = Returned jB
    /\ App.analysis (App.ui (App.step env p (App.AnalysisSettles 0))) = Some jA
    /\ App.analysis
         (App.ui (App.run env p [App.AnalysisSettles 0; App.AnalysisSettles 0]))
       = Some jB
    /\ App.analysis
         (App.ui (App.run env p [App.AnalysisSettles 1; App.AnalysisSettles 0]))
       = Some jA
    /\ App.inflight (App.run env p [App.AnalysisSettles 1; App.AnalysisSettles 0])
       = [].
Proof.
  intros Hp.
  destruct (checkCompatibility_returns env A) as [jA HA].
  destruct (checkCompatibility_returns env B) as [jB HB].
  exists jA, jB. unfold App.run. cbn. rewrite Hp. cbn.
  rewrite HA, HB. cbn. by rewrite ?HA, ?HB.
Qed.

Lemma C4_last_response_witness :
  App.analysis (App.ui (App.run env_slow_first App.start stale_trace))
  = Some geminiService.fallback.
Proof.
  destruct (C4_last_response_wins env_slow_first
              (App.run env_slow_first App.start
                 [App.AddPart ryzen; App.RunAnalysis; App.AddPart core_i5;
                  App.RunAnalysis])
              [(CPU, ryzen)] [(CPU, core_i5)] eq_refl)
    as (jA & jB & HA & _ & _ & _ & Hstale & _).
  injection HA as <-. exact Hstale.
Defined.

(** C4 as first stated fails: after both requests have completed the
    panel shows the result computed for the superseded build A, not the
    one for the latest request. *)
Lemma C4_stale_response_counterexample :
  App.build (App.ui (App.run env_slow_first App.start stale_trace))
  = [(CPU, core_i5)]
  /\ App.inflight
       (App.run env_slow_first App.start
          [App.AddPart ryzen; App.RunAnalysis; App.AddPart core_i5;
           App.RunAnalysis])
     = [[(CPU, ryzen)]; [(CPU, core_i5)]]
  /\ App.inflight (App.run env_slow_first App.start stale_trace) = []
  /\ geminiService.checkCompatibility env_slow_first [(CPU, ryzen)]
     = Returned geminiService.fallback
  /\ geminiService.checkCompatibility env_slow_first [(CPU, core_i5)]
     = Returned answer
  /\ App.analysis (App.ui (App.run env_slow_first App.start stale_trace))
     = Some geminiService.fallback
  /\ App.analysis (App.ui (App.run env_slow_first App.start stale_trace))
     <> Some answer.
Proof. split_and!; try reflexivity. discriminate. Qed.

(** * Further properties *)

(** ** Slot operations *)

Section JSObjectLaws.
Context {K V : Type} `{EqDecision K}.
Implicit Types (o : list (K * V)) (k : K) (v : V).

Lemma delete_absent o k : JSObject.get o k = None -> JSObject.delete o k = o.
Proof.
  induction o as [|[k0 v0] o IH]; [done |].
  cbn [JSObject.get JSObject.delete]. case_decide; [done |].
  intros Hget. by rewrite IH.
Qed.

Lemma delete_delete o k :
  JSObject.delete (JSObject.delete o k) k = JSObject.delete o k.
Proof. apply delete_absent. rewrite get_delete. by rewrite decide_True. Qed.

Lemma set_set o k v v' :
  JSObject.set (JSObject.set o k v) k v' = JSObject.set o k v'.
Proof.
  induction o as [|[k0 v0] o IH]; cbn [JSObject.set].
  - by rewrite decide_True.
  - case_decide; cbn [JSObject.set].
    + by rewrite decide_True.
    + rewrite decide_False by done. by rewrite IH.
Qed.

Lemma delete_set o k v :
  JSObject.delete (JSObject.set o k v) k = JSObject.delete o k.
Proof.
  induction o as [|[k0 v0] o IH]; cbn [JSObject.set JSObject.delete].
  - by rewrite decide_True.
  - case_decide; cbn [JSObject.delete].
    + by rewrite decide_True.
    + rewrite decide_False by done. by rewrite IH.
Qed.

Lemma length_set o k v :
  length (JSObject.set o k v)
  = (length o + if truthy_obj (JSObject.get o k) then 0 else 1)%nat.
Proof.
  induction o as [|[k0 v0] o IH]; cbn [JSObject.set JSObject.get length];
    [done |].
  case_decide; cbn [length truthy_obj]; [lia | rewrite IH; lia].
Qed.
End JSObjectLaws.

Lemma state_eta (s : App.State) :
  {| App.build := App.build s; App.activeCategory := App.activeCategory s;
     App.analysis := App.analysis s; App.analyzing := App.analyzing s;
     App.showAnalysis := App.showAnalysis s |} = s.
Proof. by destruct s. Qed.

Lemma handleAddPart_eq part s :
  App.handleAddPart part s
  = {| App.build := JSObject.set (App.build s) (type part) part;
       App.activeCategory :=
         default (App.activeCategory s) (next_in_order (type part));
       App.analysis := App.analysis s; App.analyzing := App.analyzing s;
       App.showAnalysis := App.showAnalysis s |}.
Proof.
  unfold App.handleAddPart. rewrite indexOf_order. by destruct (type part).
Qed.

(** X1. Removing a part empties its slot and no other; removing from an
    empty slot changes nothing, so removing twice is removing once. *)
Theorem X1_remove_part (t : PartType) (s : App.State) :
  JSObject.get (App.build (App.handleRemovePart t s)) t = None
  /\ (forall k, k ≠ t ->
        JSObject.get (App.build (App.handleRemovePart t s)) k
        = JSObject.get (App.build s) k)
  /\ (JSObject.get (App.build s) t = None -> App.handleRemovePart t s = s)
  /\ App.handleRemovePart t (App.handleRemovePart t s)
     = App.handleRemovePart t s.
Proof.
  unfold App.handleRemovePart, App.setBuild. cbn. split_and!.
  - rewrite get_delete. by rewrite decide_True.
  - intros k Hk. rewrite get_delete. by rewrite decide_False.
  - intros Hget. rewrite delete_absent by done. apply state_eta.
  - by rewrite delete_delete.
Qed.

Lemma X1_remove_part_witness :
  JSObject.get (App.build (App.handleRemovePart GPU
                             (App.handleAddPart ryzen App.initial))) CPU
  = Some ryzen
  /\ App.handleRemovePart GPU (App.handleAddPart ryzen App.initial)
     = App.handleAddPart ryzen App.initial.
Proof.
  split.
  - rewrite (proj1 (proj2 (X1_remove_part GPU (App.handleAddPart ryzen App.initial)))
               CPU); [reflexivity | discriminate].
  - apply (proj1 (proj2 (proj2
             (X1_remove_part GPU (App.handleAddPart ryzen App.initial))))).
    reflexivity.
Defined.

(** X2. Adding a part over another of the same category leaves the page
    exactly as if only the second had been added, and adding a part and
    then removing its category leaves the build as removing alone. *)
Theorem X2_add_overwrites (p1 p2 : ComponentData) (s : App.State) :
  type p1 = type p2 ->
  App.handleAddPart p2 (App.handleAddPart p1 s) = App.handleAddPart p2 s
  /\ App.build (App.handleRemovePart (type p1) (App.handleAddPart p1 s))
     = App.build (App.handleRemovePart (type p1) s).
Proof.
  intros Ht. rewrite !handleAddPart_eq. cbn. split.
  - rewrite Ht, set_set. f_equal.
    by destruct (type p2).
  - by rewrite delete_set.
Qed.

Lemma X2_add_overwrites_witness :
  App.handleAddPart core_i5 (App.handleAddPart ryzen App.initial)
  = App.handleAddPart core_i5 App.initial.
Proof. apply (X2_add_overwrites ryzen core_i5 App.initial). reflexivity. Defined.

(** ** Totals under the operations *)

Lemma filledCount_length (o : BuildState) : App.filledCount o = length o.
Proof.
  unfold App.filledCount. rewrite activeParts_values.
  unfold JSObject.values. by rewrite length_fmap.
Qed.

Lemma length_object_delete (o : BuildState) k :
  JSObject.wf o ->
  length (JSObject.delete o k)
  = (length o - if truthy_obj (JSObject.get o k) then 1 else 0)%nat.
Proof.
  unfold JSObject.wf, JSObject.keys.
  induction o as [|[k0 c0] o IH]; [done |].
  cbn [fmap list_fmap fst]. intros [Hk0 Hwf]%NoDup_cons.
  cbn [JSObject.delete JSObject.get]. case_decide as Hk; cbn [truthy_obj length].
  - subst k0. rewrite delete_absent by (by apply get_None_keys). lia.
  - rewrite (IH Hwf). destruct (JSObject.get o k) eqn:Hget; cbn; [| lia].
    destruct o; [done | cbn; lia].
Qed.

(** A sum over the eight slots after a slot is set or emptied. *)
Lemma slots_sum_set (g : option ComponentData -> Z) (o : BuildState) k c :
  Zsum ((fun t => g (JSObject.get (JSObject.set o k c) t)) <$> PartType_values)
  = Zsum ((fun t => g (JSObject.get o t)) <$> PartType_values)
    - g (JSObject.get o k) + g (Some c).
Proof.
  unfold PartType_values, Zsum. cbn [fmap list_fmap foldr].
  rewrite !get_set. destruct k; repeat case_decide; try done; lia.
Qed.

Lemma slots_sum_delete (g : option ComponentData -> Z) (o : BuildState) k :
  Zsum ((fun t => g (JSObject.get (JSObject.delete o k) t)) <$> PartType_values)
  = Zsum ((fun t => g (JSObject.get o t)) <$> PartType_values)
    - g (JSObject.get o k) + g None.
Proof.
  unfold PartType_values, Zsum. cbn [fmap list_fmap foldr].
  rewrite !get_delete. destruct k; repeat case_decide; try done; lia.
Qed.

Lemma price_sum_set (o : BuildState) k c :
  price_sum (JSObject.set o k c) = price_sum o - slot_rupees o k + rupees c.
Proof.
  unfold price_sum, slot_rupees.
  apply (slots_sum_set (from_option rupees 0)).
Qed.

Lemma price_sum_delete (o : BuildState) k :
  price_sum (JSObject.delete o k) = price_sum o - slot_rupees o k.
Proof.
  unfold price_sum, slot_rupees.
  rewrite (slots_sum_delete (from_option rupees 0)). cbn. lia.
Qed.

Lemma whole_prices_delete (o : BuildState) k :
  whole_prices o -> whole_prices (JSObject.delete o k).
Proof.
  intros [Hwhole Hbound]. split.
  - intros t c. rewrite get_delete. case_decide; [done | apply Hwhole].
  - unfold slot_rupees in *.
    rewrite (slots_sum_delete (fun r => Z.abs (from_option rupees 0 r))).
    cbn [from_option Z.abs]. lia.
Qed.

(** X3. When the prices are whole numbers whose magnitudes add up to
    less than 2^53, before and after the addition, adding a part changes
    the total by the price of the part minus the price its slot held
    before.  Whatever the prices, it raises the count of selected parts
    by one exactly when the slot was empty. *)
Theorem X3_totals_after_add (part : ComponentData) (s : App.State) :
  (JSObject.wf (App.build s) ->
   whole_prices (App.build s) ->
   whole_prices (App.build (App.handleAddPart part s)) ->
   App.totalPrice (App.build s) = Float64.ofZ (price_sum (App.build s))
   /\ App.totalPrice (App.build (App.handleAddPart part s))
      = Float64.ofZ (price_sum (App.build s)
                     - slot_rupees (App.build s) (type part) + rupees part))
  /\ App.filledCount (App.build (App.handleAddPart part s))
     = (App.filledCount (App.build s)
        + if truthy_obj (JSObject.get (App.build s) (type part))
          then 0 else 1)%nat.
Proof.
  rewrite build_handleAddPart, !filledCount_length. split.
  - intros Hwf Hbefore Hafter. split; [by apply totalPrice_whole |].
    rewrite totalPrice_whole by (done || by apply wf_set).
    by rewrite price_sum_set.
  - apply length_set.
Qed.

Lemma X3_totals_after_add_witness :
  App.totalPrice
    (App.build (App.handleAddPart core_i5
                  (App.handleAddPart b650 (App.handleAddPart ryzen App.initial))))
  = Float64.ofZ (33499 - 18999 + 16499).
Proof.
  apply (proj1 (X3_totals_after_add core_i5
                  (App.handleAddPart b650 (App.handleAddPart ryzen App.initial)))).
  - apply (bool_decide_unpack _). by vm_compute.
  - split; [| by vm_compute].
    intros t c. destruct t; cbn; intros [= <-]; by vm_compute.
  - split; [| by vm_compute].
    intros t c. destruct t; cbn; intros [= <-]; by vm_compute.
Defined.

Lemma build_after_snoc ops o :
  build_after (ops ++ [o])
  = App.build (apply_op (foldl apply_op App.initial ops) o).
Proof. unfold build_after. by rewrite foldl_app. Qed.

(** X4. After any sequence of slot operations that leaves whole-number
    prices whose magnitudes add up to less than 2^53, removing a category
    lowers the total by the price its slot held, by nothing if the slot
    was empty.  Whatever the prices, it lowers the count by one exactly
    when the slot was filled. *)
Theorem X4_totals_after_remove (ops : list op) (t : PartType) :
  (whole_prices (build_after ops) ->
   App.totalPrice (build_after ops) = Float64.ofZ (price_sum (build_after ops))
   /\ App.totalPrice (build_after (ops ++ [clearSlot t]))
      = Float64.ofZ (price_sum (build_after ops)
                     - slot_rupees (build_after ops) t))
  /\ App.filledCount (build_after (ops ++ [clearSlot t]))
     = (App.filledCount (build_after ops)
        - if truthy_obj (JSObject.get (build_after ops) t) then 1 else 0)%nat.
Proof.
  destruct (store_inv_build_after ops) as [Hwf _].
  rewrite build_after_snoc. cbn [apply_op].
  rewrite build_handleRemovePart, !filledCount_length.
  fold (build_after ops). split.
  - intros Hprices. split; [by apply totalPrice_whole |].
    rewrite totalPrice_whole
      by (by apply wf_delete || by apply whole_prices_delete).
    by rewrite price_sum_delete.
  - by apply length_object_delete.
Qed.

Lemma X4_totals_after_remove_witness :
  App.totalPrice
    (build_after ([setSlot ryzen; setSlot b650; setSlot ddr5] ++ [clearSlot CPU]))
  = Float64.ofZ (38699 - 18999).
Proof.
  apply (proj1 (X4_totals_after_remove
                  [setSlot ryzen; setSlot b650; setSlot ddr5] CPU)).
  split; [| by vm_compute].
  intros t c. destruct t; cbn; intros [= <-]; by vm_compute.
Defined.

Lemma activeParts_bound (env : geminiService.Env) (es : list App.event) :
  (length (App.activeParts (build_of env es)) <= 8)%nat.
Proof.
  destruct (store_inv_run env es) as [Hwf _].
  change (App.filledCount (build_of env es) <= 8)%nat.
  unfold build_of. rewrite (filledCount_occupied _ Hwf). unfold occupied.
  etrans; [apply length_filter | done].
Qed.

(** X5. On every page the user can reach, at most eight parts are
    selected, one per category at most. *)
Theorem X5_at_most_eight_parts (env : geminiService.Env) (es : list App.event) :
  (App.filledCount (build_of env es) <= 8)%nat
  /\ NoDup (JSObject.keys (build_of env es)).
Proof.
  destruct (store_inv_run env es) as [Hwf _].
  split; [apply activeParts_bound | done].
Qed.

(** ** The price chart *)

Lemma chartData_filter build :
  App.chartData build
  = filter (fun x => Float64.truthy (App.value x))
      ((fun part => {| App.name := type part; App.value := price part |})
         <$> JSObject.values build).
Proof. unfold App.chartData. by rewrite activeParts_values. Qed.

Lemma filter_fmap_slices (l : list ComponentData) :
  filter (fun x => Float64.truthy (App.value x))
    ((fun part => {| App.name := type part; App.value := price part |}) <$> l)
  = (fun part => {| App.name := type part; App.value := price part |})
      <$> filter (fun c => Float64.truthy (price c)) l.
Proof.
  induction l as [|c l IH]; [done |].
  rewrite fmap_cons, !filter_cons. cbn [App.value].
  destruct (decide (Float64.truthy (price c))); by rewrite IH.
Qed.

(** A falsy price counts for no rupees. *)
Lemma integer_of_falsy x : Float64.truthy x = false -> integer_of x = 0.
Proof. by destruct x. Qed.

Lemma Zsum_filter_truthy (l : list ComponentData) :
  Zsum (rupees <$> filter (fun c => Float64.truthy (price c)) l)
  = Zsum (rupees <$> l).
Proof.
  unfold Zsum. induction l as [|c l IH]; [done |].
  rewrite filter_cons.
  destruct (decide (Float64.truthy (price c))) as [Ht|Ht];
    cbn [fmap list_fmap foldr]; rewrite IH; [done |].
  unfold rupees at 2. rewrite integer_of_falsy; [done |].
  by destruct (Float64.truthy (price c)).
Qed.

(** X6. The pie has one slice for each selected part whose price is
    truthy, in the order of the build object, carrying the category and
    the price of the part: exactly the parts whose price is [0], [-0] or
    [NaN] are left out.  When the prices are whole numbers whose
    magnitudes add up to less than 2^53, the values of the slices add up
    to the total price shown. *)
Theorem X6_chart_slices (build : BuildState) :
  App.chartData build
  = (fun part => {| App.name := type part; App.value := price part |})
      <$> filter (fun c => Float64.truthy (price c)) (JSObject.values build)
  /\ (forall c,
        c ∈ JSObject.values build ->
        {| App.name := type c; App.value := price c |} ∈ App.chartData build
        <-> Float64.truthy (price c) = true)
  /\ (JSObject.wf build -> whole_prices build ->
        App.totalPrice build
        = Float64.ofZ (Zsum (integer_of ∘ App.value <$> App.chartData build))).
Proof.
  assert (App.chartData build
          = (fun part => {| App.name := type part; App.value := price part |})
              <$> filter (fun c => Float64.truthy (price c))
                         (JSObject.values build)) as Heq
    by (by rewrite chartData_filter, filter_fmap_slices).
  split_and!; [done | |].
  - intros c Hc. rewrite Heq, list_elem_of_fmap. split.
    + intros (c' & [= _ Hprice] & [Ht _]%list_elem_of_filter).
      rewrite Hprice. by apply Is_true_true.
    + intros Ht. exists c. split; [done |].
      apply list_elem_of_filter. split; [by rewrite Ht | done].
  - intros Hwf Hprices. rewrite totalPrice_whole by done. f_equal.
    rewrite Heq, <- list_fmap_compose.
    unfold price_sum, slot_rupees. rewrite <- (Zsum_slots rupees build Hwf).
    symmetry. apply Zsum_filter_truthy.
Qed.

Lemma X6_chart_slices_witness :
  App.totalPrice [(CPU, ryzen); (GPU, priced rtx Float64.zero); (RAM, ddr5)]
  = Float64.ofZ
      (Zsum (integer_of ∘ App.value
               <$> App.chartData
                     [(CPU, ryzen); (GPU, priced rtx Float64.zero); (RAM, ddr5)])).
Proof.
  apply (proj2 (proj2 (X6_chart_slices
                  [(CPU, ryzen); (GPU, priced rtx Float64.zero); (RAM, ddr5)]))).
  - apply (bool_decide_unpack _). by vm_compute.
  - split; [| by vm_compute].
    intros t c. destruct t; cbn; intros [= <-]; by vm_compute.
Defined.

Example chartData_skips_free_part :
  App.name
    <$> App.chartData [(CPU, ryzen); (GPU, priced rtx Float64.zero); (RAM, ddr5)]
  = [CPU; RAM].
Proof. by vm_compute. Qed.

Lemma keyed_types (build : BuildState) :
  keyed_by_category build ->
  type <$> JSObject.values build = JSObject.keys build.
Proof.
  unfold keyed_by_category, JSObject.values, JSObject.keys.
  induction 1 as [|[k c] o Hk _ IH]; [done |].
  cbn in *. by rewrite Hk, IH.
Qed.

Lemma chart_names_sublist (build : BuildState) :
  App.name <$> App.chartData build `sublist_of` type <$> JSObject.values build.
Proof.
  rewrite chartData_filter.
  etrans; [apply fmap_sublist, sublist_filter |].
  by rewrite <- list_fmap_compose.
Qed.

Lemma NoDup_COLORS : NoDup App.COLORS.
Proof. apply (bool_decide_unpack _). by vm_compute. Qed.

Lemma cells_take {A} (l : list A) :
  (length l <= 8)%nat ->
  imap (fun index _ => App.fill index) l = Some <$> take (length l) App.COLORS.
Proof.
  intros Hlen.
  do 9 (destruct l as [|? l]; [reflexivity |]).
  cbn in Hlen. lia.
Qed.

(** X7. On every page the user can reach, the pie has at most eight
    slices, no two slices for the same category, every slice has a
    colour, and no two slices share a colour. *)
Theorem X7_chart_slices_distinct (env : geminiService.Env) (es : list App.event) :
  (length (App.chartData (build_of env es)) <= 8)%nat
  /\ NoDup (App.name <$> App.chartData (build_of env es))
  /\ exists colours,
       App.cells (build_of env es) = Some <$> colours /\ NoDup colours.
Proof.
  destruct (store_inv_run env es) as [Hwf Hkey]. fold (build_of env es) in *.
  assert (NoDup (App.name <$> App.chartData (build_of env es))) as Hnames.
  { eapply sublist_NoDup; [| apply chart_names_sublist].
    by rewrite keyed_types. }
  assert (length (App.chartData (build_of env es)) <= 8)%nat as Hlen.
  { rewrite <- (length_fmap App.name).
    etrans; [apply sublist_length, chart_names_sublist |].
    rewrite length_fmap. fold (JSObject.values (build_of env es)).
    rewrite <- activeParts_values. apply (activeParts_bound env es). }
  split_and!; [done | done |].
  exists (take (length (App.chartData (build_of env es))) App.COLORS).
  split.
  - unfold App.cells. by apply cells_take.
  - eapply sublist_NoDup; [apply NoDup_COLORS | apply sublist_take].
Qed.

(** ** The diagram under the operations *)

(** The connections drawn, rule by rule. *)
Lemma renderConnections_flat build :
  VisualBuilder.renderConnections build
  = rule_table ≫= (fun r => if fires build r then drawn_for r else []).
Proof.
  unfold rule_table. rewrite !bind_cons. cbv beta.
  change (@nil rule ≫= _) with (@nil VisualBuilder.connection).
  unfold fires, VisualBuilder.renderConnections. cbn [source target].
  by_slots build; vm_compute; reflexivity.
Qed.

Lemma bind_sublist_pointwise {A B} (f g : A -> list B) (l : list A) :
  (forall x, f x `sublist_of` g x) -> l ≫= f `sublist_of` l ≫= g.
Proof.
  intros Hfg. induction l as [|x l IH]; [done |].
  rewrite !bind_cons. by apply sublist_app.
Qed.

Lemma renderConnections_mono (b b' : BuildState) :
  (forall t, filled b t -> filled b' t) ->
  VisualBuilder.renderConnections b `sublist_of` VisualBuilder.renderConnections b'.
Proof.
  intros Hsub. rewrite !renderConnections_flat.
  apply bind_sublist_pointwise. intros r.
  destruct (fires b r) eqn:Hb; [| apply sublist_nil_l].
  apply fires_filled in Hb as [Hs Ht].
  assert (fires b' r = true) as -> by (apply fires_filled; split; by apply Hsub).
  done.
Qed.

Lemma renderConnections_ext (b b' : BuildState) :
  (forall t, t ≠ CASE -> t ≠ COOLER -> filled b t <-> filled b' t) ->
  VisualBuilder.renderConnections b = VisualBuilder.renderConnections b'.
Proof.
  intros Hsame.
  assert (forall t, t ≠ CASE -> t ≠ COOLER ->
            truthy_obj (JSObject.get b t) = truthy_obj (JSObject.get b' t)) as Ht.
  { intros t H1 H2. apply eq_true_iff_eq.
    rewrite !truthy_obj_filled. by apply Hsame. }
  unfold VisualBuilder.renderConnections.
  by rewrite (Ht PSU), (Ht MOTHERBOARD), (Ht GPU), (Ht CPU), (Ht RAM),
    (Ht STORAGE).
Qed.

Lemma filled_set (b : BuildState) k c t :
  filled (JSObject.set b k c) t <-> t = k \/ filled b t.
Proof.
  unfold filled. rewrite get_set. case_decide; subst.
  - split; [by left | by eexists].
  - split; [by right | intros [?|?]; congruence].
Qed.

Lemma filled_delete (b : BuildState) k t :
  filled (JSObject.delete b k) t <-> t ≠ k /\ filled b t.
Proof.
  unfold filled. rewrite get_delete. case_decide; subst.
  - split; [by intros [? ?] | by intros [? _]].
  - split; [by split | by intros [_ ?]].
Qed.

(** X8. The diagram is decided by which of the six slots processor,
    motherboard, memory, graphics card, storage and power supply are
    filled: two builds that fill the same ones give the same connections,
    whatever parts they hold and whatever the cooler and case slots hold.
    In particular replacing the part of a filled slot changes nothing. *)
Theorem X8_diagram_depends_on_occupancy (b b' : BuildState) :
  ((forall t, t ≠ CASE -> t ≠ COOLER -> filled b t <-> filled b' t) ->
   VisualBuilder.renderConnections b = VisualBuilder.renderConnections b')
  /\ (forall part,
        filled b (type part) ->
        VisualBuilder.renderConnections (JSObject.set b (type part) part)
        = VisualBuilder.renderConnections b).
Proof.
  split; [apply renderConnections_ext |].
  intros part Hfilled. apply renderConnections_ext. intros t _ _.
  rewrite filled_set. split; [intros [->|?]; done | by right].
Qed.

Lemma X8_diagram_witness :
  VisualBuilder.renderConnections [(CPU, core_i5); (RAM, ddr5); (CASE, cabinet)]
  = VisualBuilder.renderConnections [(RAM, ddr5); (CPU, ryzen)]
  /\ VisualBuilder.renderConnections
       (JSObject.set [(RAM, ddr5); (CPU, ryzen)] (type core_i5) core_i5)
     = VisualBuilder.renderConnections [(RAM, ddr5); (CPU, ryzen)].
Proof.
  split.
  - apply (proj1 (X8_diagram_depends_on_occupancy
                    [(CPU, core_i5); (RAM, ddr5); (CASE, cabinet)]
                    [(RAM, ddr5); (CPU, ryzen)])).
    intros t H1 H2. unfold filled.
    destruct t; cbn; try done; split; intros [? ?]; done || by eexists.
  - apply (proj2 (X8_diagram_depends_on_occupancy
                    [(RAM, ddr5); (CPU, ryzen)] [(RAM, ddr5); (CPU, ryzen)])).
    by eexists.
Defined.

(** X9. Adding a part never takes a connection away and removing a part
    never brings one in: the connections before an addition are a
    sublist of those after it, and those after a removal a sublist of
    those before. *)
Theorem X9_diagram_monotone (part : ComponentData) (t : PartType)
    (s : App.State) :
  VisualBuilder.renderConnections (App.build s)
    `sublist_of`
    VisualBuilder.renderConnections (App.build (App.handleAddPart part s))
  /\ VisualBuilder.renderConnections (App.build (App.handleRemovePart t s))
       `sublist_of` VisualBuilder.renderConnections (App.build s).
Proof.
  rewrite build_handleAddPart, build_handleRemovePart. split.
  - apply renderConnections_mono. intros t'. rewrite filled_set. tauto.
  - apply renderConnections_mono. intros t'. rewrite filled_delete. tauto.
Qed.

(** X10. Once a part is removed, no connection of a rule that has its
    category as an endpoint is drawn. *)
Theorem X10_removed_part_has_no_edges (t : PartType) (s : App.State)
    (r : rule) :
  r ∈ rule_table ->
  source r = t \/ target r = t ->
  edge r ∉ VisualBuilder.id
             <$> VisualBuilder.renderConnections
                   (App.build (App.handleRemovePart t s)).
Proof.
  intros Hr Hend (c & Hid & Hc)%list_elem_of_fmap.
  rewrite build_handleRemovePart in Hc.
  assert (filled (JSObject.delete (App.build s) t) (source r)
          /\ filled (JSObject.delete (App.build s) t) (target r)) as [Hs Ht].
  { apply (renderConnections_edge_iff _ r Hr). by exists c. }
  apply filled_delete in Hs as [Hs _]. apply filled_delete in Ht as [Ht _].
  destruct Hend; congruence.
Qed.

Lemma X10_removed_part_witness :
  "mobo-sata"
  ∈ VisualBuilder.id
      <$> VisualBuilder.renderConnections
            (App.build
               (App.handleAddPart ssd
                  (App.handleAddPart b650
                     (App.handleAddPart ddr5
                        (App.handleAddPart ryzen App.initial)))))
  /\ "mobo-sata"
     ∉ VisualBuilder.id
         <$> VisualBuilder.renderConnections
               (App.build
                  (App.handleRemovePart STORAGE
                     (App.handleAddPart ssd
                        (App.handleAddPart b650
                           (App.handleAddPart ddr5
                              (App.handleAddPart ryzen App.initial)))))).
Proof.
  split.
  - vm_compute. repeat constructor.
  - apply (X10_removed_part_has_no_edges STORAGE
             (App.handleAddPart ssd
                (App.handleAddPart b650
                   (App.handleAddPart ddr5
                      (App.handleAddPart ryzen App.initial))))
             mobo_sata_rule).
    + vm_compute. repeat constructor.
    + by right.
Defined.

Lemma NoDup_edges : NoDup (edge <$> rule_table).
Proof. apply (bool_decide_unpack _). by vm_compute. Qed.

(** X11. For every build at most five connections are drawn and no two
    share an id. *)
Theorem X11_connection_ids_distinct (build : BuildState) :
  NoDup (VisualBuilder.id <$> VisualBuilder.renderConnections build)
  /\ (length (VisualBuilder.renderConnections build) <= 5)%nat.
Proof.
  assert (VisualBuilder.id <$> VisualBuilder.renderConnections build
          `sublist_of` edge <$> rule_table) as Hsub.
  { assert (VisualBuilder.id <$> VisualBuilder.renderConnections build
            = (label <$> VisualBuilder.renderConnections build).*1) as ->
      by (by rewrite <- list_fmap_compose).
    rewrite renderConnections_labels, <- list_fmap_compose.
    apply fmap_sublist, sublist_filter. }
  split.
  - eapply sublist_NoDup; [apply NoDup_edges | done].
  - rewrite <- (length_fmap VisualBuilder.id).
    by apply sublist_length in Hsub.
Qed.

(** ** Routed paths *)

(** X12. Between two points whose heights add up to an even number, as
    they do on both routes the component asks for, the orthogonal route
    starts at the first point, ends at the second, has four vertices, and
    each of its three segments is vertical or horizontal, the horizontal
    one lying at the mean of the two heights. *)
Theorem X12_getOrthoPath_orthogonal (start end_ : VisualBuilder.point) :
  (VisualBuilder.y start + VisualBuilder.y end_) mod 2 = 0 ->
  head (VisualBuilder.getOrthoPath start end_) = Some start
  /\ last (VisualBuilder.getOrthoPath start end_) = Some end_
  /\ length (VisualBuilder.getOrthoPath start end_) = 4%nat
  /\ orthogonal (VisualBuilder.getOrthoPath start end_)
  /\ exists midY,
       2 * midY = VisualBuilder.y start + VisualBuilder.y end_
       /\ VisualBuilder.getOrthoPath start end_
          = [start;
             {| VisualBuilder.x := VisualBuilder.x start;
                VisualBuilder.y := midY |};
             {| VisualBuilder.x := VisualBuilder.x end_;
                VisualBuilder.y := midY |};
             end_].
Proof.
  intros Heven. unfold VisualBuilder.getOrthoPath, aligned. cbn.
  split_and!; try done; try (unfold aligned; cbn; tauto).
  eexists. split; [| reflexivity].
  pose proof (Z.div_mod (VisualBuilder.y start + VisualBuilder.y end_) 2
                ltac:(lia)) as Hdiv.
  lia.
Qed.

Lemma X12_getOrthoPath_witness :
  VisualBuilder.getOrthoPath (VisualBuilder.centers PSU)
    (VisualBuilder.centers MOTHERBOARD)
  = [ {| VisualBuilder.x := 110; VisualBuilder.y := 528 |};
      {| VisualBuilder.x := 110; VisualBuilder.y := 384 |};
      {| VisualBuilder.x := 210; VisualBuilder.y := 384 |};
      {| VisualBuilder.x := 210; VisualBuilder.y := 240 |} ]
  /\ orthogonal
       (VisualBuilder.getOrthoPath (VisualBuilder.centers PSU)
          (VisualBuilder.centers MOTHERBOARD)).
Proof.
  split; [reflexivity |].
  apply (X12_getOrthoPath_orthogonal (VisualBuilder.centers PSU)
           (VisualBuilder.centers MOTHERBOARD)).
  reflexivity.
Defined.

Lemma orthogonal_all_but_cpu_ram :
  Forall (fun c => VisualBuilder.id c ≠ "cpu-ram" ->
                   orthogonal (VisualBuilder.path c)) all_connections.
Proof.
  unfold all_connections. repeat constructor; cbn; unfold aligned; cbn;
    intros; try done; tauto.
Qed.

(** X13. For every build, each connection drawn other than the
    processor-memory one is routed along vertical and horizontal
    segments only. *)
Theorem X13_drawn_paths_orthogonal (build : BuildState)
    (c : VisualBuilder.connection) :
  c ∈ VisualBuilder.renderConnections build ->
  VisualBuilder.id c ≠ "cpu-ram" ->
  orthogonal (VisualBuilder.path c).
Proof.
  intros Hc%renderConnections_among.
  by apply (proj1 (Forall_forall _ _) orthogonal_all_but_cpu_ram).
Qed.

Lemma X13_drawn_paths_witness : orthogonal (VisualBuilder.path mobo_sata).
Proof.
  apply (X13_drawn_paths_orthogonal [(MOTHERBOARD, b650); (STORAGE, ssd)]).
  - vm_compute. repeat constructor.
  - discriminate.
Defined.

(** ** Slots of the cabinet view *)

Lemma clickSlot_eq t s :
  App.clickSlot t s
  = if truthy_obj (JSObject.get (App.build s) t)
    then App.handleRemovePart t s else s.
Proof.
  unfold App.clickSlot, VisualBuilder.renderSlot. cbn.
  by destruct (JSObject.get (App.build s) t).
Qed.

(** X14. A click on an empty slot does nothing; a click on a filled slot
    removes the part of that slot and of no other, and the slot is then
    rendered as empty, titled "Empty <category> Slot". *)
Theorem X14_click_slot (t : PartType) (s : App.State) :
  (JSObject.get (App.build s) t = None -> App.clickSlot t s = s)
  /\ (forall part,
        JSObject.get (App.build s) t = Some part ->
        VisualBuilder.title (VisualBuilder.renderSlot (App.build s) t)
        = name part +:+ " (Click to remove)"
        /\ App.clickSlot t s = App.handleRemovePart t s)
  /\ JSObject.get (App.build (App.clickSlot t s)) t = None
  /\ (forall k, k ≠ t ->
        JSObject.get (App.build (App.clickSlot t s)) k
        = JSObject.get (App.build s) k)
  /\ VisualBuilder.title
       (VisualBuilder.renderSlot (App.build (App.clickSlot t s)) t)
     = "Empty " +:+ PartType_value t +:+ " Slot"
  /\ VisualBuilder.onClick
       (VisualBuilder.renderSlot (App.build (App.clickSlot t s)) t) = None.
Proof.
  rewrite clickSlot_eq.
  assert (JSObject.get
            (App.build (if truthy_obj (JSObject.get (App.build s) t)
                        then App.handleRemovePart t s else s)) t = None) as Hnone.
  { destruct (JSObject.get (App.build s) t) eqn:Hget; cbn; [| done].
    rewrite get_delete. by rewrite decide_True. }
  split_and!.
  - by intros ->.
  - intros part Hget. unfold VisualBuilder.renderSlot. cbn. by rewrite Hget.
  - done.
  - intros k Hk. destruct (JSObject.get (App.build s) t); cbn; [| done].
    rewrite get_delete. by rewrite decide_False.
  - unfold VisualBuilder.renderSlot. cbn. by rewrite Hnone.
  - unfold VisualBuilder.renderSlot. cbn. by rewrite Hnone.
Qed.

Lemma X14_click_slot_witness :
  App.clickSlot GPU (App.handleAddPart ryzen App.initial)
  = App.handleAddPart ryzen App.initial
  /\ App.clickSlot CPU (App.handleAddPart ryzen App.initial)
     = App.handleRemovePart CPU (App.handleAddPart ryzen App.initial).
Proof.
  split.
  - apply (proj1 (X14_click_slot GPU (App.handleAddPart ryzen App.initial))).
    reflexivity.
  - apply (proj1 (proj2 (X14_click_slot CPU (App.handleAddPart ryzen App.initial)))
             ryzen).
    reflexivity.
Defined.

Lemma click_all_other ts s k :
  k ∉ ts ->
  JSObject.get (App.build (click_all ts s)) k = JSObject.get (App.build s) k.
Proof.
  unfold click_all. revert s.
  induction ts as [|t ts IH]; intros s Hk; [done |].
  apply not_elem_of_cons in Hk as [Hkt Hk]. cbn [foldl].
  rewrite (IH _ Hk), clickSlot_eq.
  destruct (truthy_obj _); [| done]. rewrite build_handleRemovePart, get_delete.
  by rewrite decide_False.
Qed.

(** X15. No slot is rendered for the motherboard or the case, so no
    sequence of clicks on the rendered slots removes an installed
    motherboard or case. *)
Theorem X15_motherboard_and_case_stay (ts : list PartType) (s : App.State) :
  Forall (fun t => t ∈ VisualBuilder.slotTypes) ts ->
  JSObject.get (App.build (click_all ts s)) MOTHERBOARD
  = JSObject.get (App.build s) MOTHERBOARD
  /\ JSObject.get (App.build (click_all ts s)) CASE
     = JSObject.get (App.build s) CASE
  /\ VisualBuilder.key <$> VisualBuilder.renderSlots (App.build s)
     = [CPU; COOLER; RAM; GPU; STORAGE; PSU].
Proof.
  intros Hts.
  assert (forall k, k ∉ VisualBuilder.slotTypes -> k ∉ ts) as Hout.
  { intros k Hk Hin. apply Hk.
    by apply (proj1 (Forall_forall _ _) Hts). }
  split_and!.
  - apply click_all_other, Hout. by vm_compute; intros H; inv H;
      repeat match goal with H : _ ∈ _ |- _ => inv H end.
  - apply click_all_other, Hout. by vm_compute; intros H; inv H;
      repeat match goal with H : _ ∈ _ |- _ => inv H end.
  - reflexivity.
Qed.

Lemma X15_motherboard_witness :
  JSObject.get
    (App.build (click_all [CPU; PSU; CPU; STORAGE]
                  (App.handleAddPart b650 (App.handleAddPart ryzen App.initial))))
    MOTHERBOARD
  = Some b650.
Proof.
  rewrite (proj1 (X15_motherboard_and_case_stay [CPU; PSU; CPU; STORAGE]
                    (App.handleAddPart b650 (App.handleAddPart ryzen App.initial))
                    ltac:(repeat constructor))).
  reflexivity.
Defined.

(** ** More on the socket check *)

(** X16. Between two records that both carry a [specs] object the check
    is symmetric: the processor is warned about against the installed
    motherboard exactly when the motherboard is warned about against the
    installed processor.  Without [specs] it is not: against an
    installed motherboard that has none the check throws, while the same
    motherboard as a candidate simply gets no warning. *)
Theorem X16_warning_symmetric (cpu mobo : ComponentData)
    (b b' : BuildState) :
  type cpu = CPU -> type mobo = MOTHERBOARD ->
  JSObject.get b MOTHERBOARD = Some mobo ->
  JSObject.get b' CPU = Some cpu ->
  (is_Some (specs cpu) -> is_Some (specs mobo) ->
   exists w w',
     ComponentList.getCompatibilityWarning b cpu = Returned w
     /\ ComponentList.getCompatibilityWarning b' mobo = Returned w'
     /\ (is_Some w <-> is_Some w'))
  /\ (is_Some (specs cpu) -> specs mobo = None ->
      ComponentList.getCompatibilityWarning b cpu = Thrown socket_TypeError
      /\ ComponentList.getCompatibilityWarning b' mobo = Returned None).
Proof.
  intros Hc Hm Hb Hb'. rewrite !getCompatibilityWarning_normal.
  unfold counterpart. rewrite Hc, Hm, Hb, Hb'. split.
  - intros [sc ->] [sm ->].
    destruct (socket_spec cpu) as [s|], (socket_spec mobo) as [m|];
      try (eexists _, _; split_and!; [done | done |];
           split; by intros [? ?]).
    destruct (decide (s = m)) as [->|Hne].
    + rewrite !bool_decide_eq_false_2 by (intros H; by apply H).
      eexists _, _. split_and!; [done | done |]. split; by intros [? ?].
    + rewrite !bool_decide_eq_true_2 by congruence.
      eexists _, _. split_and!; [done | done |]. split; by eexists.
  - intros [sc ->] Hsm. rewrite Hsm. split; [done |].
    by rewrite (socket_spec_no_specs mobo Hsm).
Qed.

Lemma X16_warning_symmetric_witness :
  (exists w w',
     ComponentList.getCompatibilityWarning [(MOTHERBOARD, z790)] ryzen
     = Returned w
     /\ ComponentList.getCompatibilityWarning [(CPU, ryzen)] z790 = Returned w'
     /\ (is_Some w <-> is_Some w'))
  /\ ComponentList.getCompatibilityWarning [(MOTHERBOARD, bare_board)] ryzen
     = Thrown socket_TypeError
  /\ ComponentList.getCompatibilityWarning [(CPU, ryzen)] bare_board
     = Returned None.
Proof.
  split.
  - apply (proj1 (X16_warning_symmetric ryzen z790
                    [(MOTHERBOARD, z790)] [(CPU, ryzen)]
                    eq_refl eq_refl eq_refl eq_refl)); by eexists.
  - apply (proj2 (X16_warning_symmetric ryzen bare_board
                    [(MOTHERBOARD, bare_board)] [(CPU, ryzen)]
                    eq_refl eq_refl eq_refl eq_refl)); [by eexists | done].
Defined.

(** X17. There is no warning when the slot the candidate is checked
    against is empty, and none for a candidate that is neither a
    processor nor a motherboard; the add button then reads
    "Add to Build". *)
Theorem X17_no_counterpart_no_warning (build : BuildState)
    (part : ComponentData) :
  counterpart build part = None ->
  ComponentList.getCompatibilityWarning build part = Returned None
  /\ (warning ← ComponentList.getCompatibilityWarning build part;
      Returned (ComponentList.addButton warning part))
     = Returned ("Add to Build", part).
Proof.
  intros Hnone. rewrite getCompatibilityWarning_normal, Hnone. by split.
Qed.

Lemma X17_no_counterpart_witness :
  ComponentList.getCompatibilityWarning [(CPU, core_i5); (RAM, ddr5)] ryzen
  = Returned None.
Proof.
  apply (X17_no_counterpart_no_warning [(CPU, core_i5); (RAM, ddr5)] ryzen).
  reflexivity.
Defined.

(** ** The specs grid *)

Lemma push_if_spec entry label value relevant r :
  r ∈ ComponentList.push_if entry label value relevant ->
  r ∈ relevant
  \/ exists s, entry = Some s /\ s ≠ ""
               /\ r = {| ComponentList.label := label;
                         ComponentList.value := value s |}.
Proof.
  unfold ComponentList.push_if. destruct entry as [s|]; [| by left].
  unfold truthy_string. destruct (String.eqb_spec s ""); cbn; [by left |].
  rewrite elem_of_app, list_elem_of_singleton. intros [? | ->]; [by left |].
  right. by exists s.
Qed.

Lemma push_if_length entry label value relevant :
  (length (ComponentList.push_if entry label value relevant)
   <= S (length relevant))%nat.
Proof.
  unfold ComponentList.push_if. destruct entry as [s|]; [| lia].
  destruct (truthy_string s); [rewrite length_app; cbn |]; lia.
Qed.

Lemma string_or_truthy s d :
  s ≠ "" -> ComponentList.string_or (Some s) d = s.
Proof.
  intros Hs. unfold ComponentList.string_or, truthy_string.
  by destruct (String.eqb_spec s "").
Qed.

(** X18. For a processor, motherboard, memory module, graphics card or
    power supply the grid has at most three rows, and every row shows a
    non-empty value that is an entry of the part's specs: the literal
    defaults of the source are never displayed. *)
Theorem X18_relevant_specs_typed (part : ComponentData)
    (r : ComponentList.row) :
  type part ∈ [CPU; MOTHERBOARD; RAM; GPU; PSU] ->
  (length (ComponentList.getRelevantSpecs part) <= 3)%nat
  /\ (r ∈ ComponentList.getRelevantSpecs part ->
      ComponentList.value r ≠ ""
      /\ exists k,
           JSObject.get (default [] (specs part)) k
           = Some (ComponentList.value r)).
Proof.
  intros Ht. unfold ComponentList.getRelevantSpecs.
  split.
  - destruct (type part);
      try (exfalso; vm_compute in Ht; inv Ht;
           repeat match goal with H : _ ∈ _ |- _ => inv H end; fail);
      repeat (etrans; [apply push_if_length |]; apply le_n_S || idtac);
      cbn; lia.
  - destruct (type part);
      try (exfalso; vm_compute in Ht; inv Ht;
           repeat match goal with H : _ ∈ _ |- _ => inv H end; fail);
      intros Hr;
      repeat (apply push_if_spec in Hr as [Hr|(s & Hs & Hne & Heq)];
              [| subst r; cbn; rewrite ?Hs, ?string_or_truthy by done;
                 eauto]);
      by apply elem_of_nil in Hr.
Qed.

Lemma X18_relevant_specs_witness :
  (length (ComponentList.getRelevantSpecs ryzen) <= 3)%nat.
Proof.
  apply (X18_relevant_specs_typed ryzen
           {| ComponentList.label := "Socket"; ComponentList.value := "AM5" |}).
  vm_compute. repeat constructor.
Defined.

(** X19. For a storage part, a case or a cooler the grid shows the first
    two entries of the specs, in their order and with the key as label,
    and nothing for a part without specs.  The labels are distinct and
    each row is the part's entry under its label.  Its values may be
    empty. *)
Theorem X19_relevant_specs_fallback (part : ComponentData) :
  type part ∈ [STORAGE; CASE; COOLER] ->
  ComponentList.getRelevantSpecs part
  = row_of <$> take 2 (default [] (specs part))
  /\ length (ComponentList.getRelevantSpecs part)
     = Nat.min 2 (length (default [] (specs part)))
  /\ (JSObject.wf (default [] (specs part)) ->
      NoDup (ComponentList.label <$> ComponentList.getRelevantSpecs part)
      /\ Forall (fun r =>
                   JSObject.get (default [] (specs part)) (ComponentList.label r)
                   = Some (ComponentList.value r))
                (ComponentList.getRelevantSpecs part)).
Proof.
  intros Ht.
  assert (ComponentList.getRelevantSpecs part
          = row_of <$> take 2 (default [] (specs part))) as ->.
  { unfold ComponentList.getRelevantSpecs.
    destruct (type part); try done;
      exfalso; vm_compute in Ht; inv Ht;
      repeat match goal with H : _ ∈ _ |- _ => inv H end. }
  split_and!.
  - done.
  - by rewrite length_fmap, length_take.
  - intros Hwf. split.
    + rewrite <- list_fmap_compose.
      eapply sublist_NoDup; [exact Hwf |].
      apply (fmap_sublist fst), sublist_take.
    + apply Forall_fmap, Forall_forall. intros [k v] Hkv. cbn.
      apply elem_of_get; [done |].
      eapply elem_of_sublist; [done | apply sublist_take].
Qed.

Lemma X19_relevant_specs_witness :
  ComponentList.getRelevantSpecs hdd
  = [ {| ComponentList.label := "capacity"; ComponentList.value := "2TB" |};
      {| ComponentList.label := "speed"; ComponentList.value := "7200RPM" |} ].
Proof.
  rewrite (proj1 (X19_relevant_specs_fallback hdd
                    ltac:(vm_compute; repeat constructor))).
  reflexivity.
Defined.

(** ** The list after a load *)





(** X21. Choosing any card of the list loaded for a category puts that
    part in the slot of the category, warning or not, and moves the
    active category to the one after it in the canonical order. *)
Theorem X21_select_card (env : geminiService.Env) (category : PartType)
    (s : ComponentList.State) (app : App.State) (part : ComponentData) :
  part ∈ ComponentList.items (ComponentList.loadItems env category s) ->
  (forall warning, (ComponentList.addButton warning part).2 = part)
  /\ JSObject.get (App.build (App.handleAddPart part app)) category = Some part
  /\ App.activeCategory (App.handleAddPart part app)
     = default (App.activeCategory app) (next_in_order category).
Proof.
  unfold ComponentList.loadItems.
  destruct (fetchComponents_returns env category
              (ComponentList.search (ComponentList.loadItems_begin s)))
    as (items & -> & Hitems).
  cbn. intros Hpart.
  assert (type part = category) as <-
    by (by apply (proj1 (Forall_forall _ _) Hitems)).
  rewrite handleAddPart_eq. cbn. split_and!; [done | | done].
  rewrite get_set. by rewrite decide_True.
Qed.

Lemma X21_select_card_witness :
  JSObject.get (App.build (App.handleAddPart ryzen App.initial)) CPU = Some ryzen
  /\ App.activeCategory (App.handleAddPart ryzen App.initial) = MOTHERBOARD.
Proof.
  destruct (X21_select_card env_loose CPU ComponentList.initial App.initial ryzen)
    as (_ & Hget & Hactive).
  - vm_compute. constructor.
  - split; [exact Hget | exact Hactive].
Defined.

(** X22. A catalog answer without text, with a text that does not parse,
    or whose parsed value is not an array gives an empty list, as an
    empty array does: the fetch never rejects on them. *)
Theorem X22_fetch_degenerate_answers (env : geminiService.Env)
    (category : PartType) (query : string)
    (response : geminiService.GenerateContentResponse) :
  geminiService.generateContent env (geminiService.CatalogRequest category query)
  = Returned response ->
  (geminiService.text response = None \/ geminiService.text response = Some "" ->
   geminiService.fetchComponents env category query = Returned [])
  /\ (forall txt e,
        geminiService.text response = Some txt ->
        geminiService.JSON_parse_catalog env txt = Thrown e ->
        geminiService.fetchComponents env category query = Returned [])
  /\ (forall txt,
        geminiService.text response = Some txt ->
        geminiService.JSON_parse_catalog env txt = Returned geminiService.RawOther
        \/ geminiService.JSON_parse_catalog env txt
           = Returned (geminiService.RawArray []) ->
        geminiService.fetchComponents env category query = Returned []).
Proof.
  intros Hgen. unfold geminiService.fetchComponents, try_catch.
  destruct (geminiService.getAI env) as [[]|e0]; cbn; [| done].
  rewrite Hgen. cbn. split_and!.
  - by intros [-> | ->].
  - intros txt e -> Hparse. cbn.
    destruct (truthy_string txt); [by rewrite Hparse | done].
  - intros txt -> Hparse. cbn.
    destruct (truthy_string txt); [| done].
    by destruct Hparse as [-> | ->].
Qed.

Lemma X22_fetch_degenerate_witness :
  geminiService.fetchComponents env_empty_object GPU "rtx" = Returned [].
Proof.
  apply (proj2 (proj2 (X22_fetch_degenerate_answers env_empty_object GPU "rtx"
                         {| geminiService.text := Some "{}" |} eq_refl)) "{}");
    [reflexivity | left; reflexivity].
Defined.

(** ** The analysis overlay *)

Lemma checkCompatibility_origin env build j :
  geminiService.checkCompatibility env build = Returned j ->
  j = geminiService.fallback
  \/ exists txt, geminiService.JSON_parse env txt = Returned j.
Proof.
  unfold geminiService.checkCompatibility, try_catch.
  destruct (geminiService.getAI env) as [[]|e]; cbn; [| intros [= <-]; by left].
  destruct (geminiService.generateContent env _) as [response|e]; cbn;
    [| intros [= <-]; by left].
  destruct (truthy_opt_string _); cbn; [| intros [= <-]; by left].
  destruct (geminiService.JSON_parse env _) as [j'|e] eqn:Hparse;
    intros [= <-]; [right; eauto | by left].
Qed.

Lemma checkCompatibility_throws env build :
  (exists e, geminiService.getAI env = Thrown e)
  \/ (exists e, geminiService.generateContent env
                  (geminiService.AnalysisRequest build) = Thrown e) ->
  geminiService.checkCompatibility env build = Returned geminiService.fallback.
Proof.
  unfold geminiService.checkCompatibility, try_catch.
  intros [[e ->]|[e He]]; [done |].
  destruct (geminiService.getAI env) as [[]|e']; cbn; [| done].
  by rewrite He.
Qed.

Lemma overlay_inv_step env p e :
  overlay_inv env p -> overlay_inv env (App.step env p e).
Proof.
  intros (Hshow & Horigin & Hbusy).
  destruct e; unfold overlay_inv; cbn; rewrite ?handleAddPart_eq; cbn;
    try (split_and!; assumption).
  - split_and!; [done | done |].
    intros _ Hnil. by destruct (App.inflight p).
  - split_and!; [done | done | done].
  - destruct (App.inflight p !! i) as [snapshot|] eqn:Hi;
      [| split_and!; assumption].
    destruct (checkCompatibility_returns env snapshot) as [j Hj].
    rewrite Hj. cbn. split_and!; [by eexists | | done].
    intros j' [= <-]. by exists snapshot.
Qed.

Lemma overlay_inv_run env es : overlay_inv env (App.run env App.start es).
Proof.
  apply (foldl_inv (overlay_inv env)); [intros; by apply overlay_inv_step |].
  split_and!; done.
Qed.

(** X23. On every page the user can reach, the spinner of the overlay
    implies that an analysis call is in flight, and the overlay shows
    "Analysis failed." only when the text of some answer parsed to a
    falsy JSON value such as [null]; a failure of the service never
    leads there. *)
Theorem X23_analysis_failed_means_falsy_answer (env : geminiService.Env)
    (es : list App.event) :
  (App.renderOverlay (App.ui (App.run env App.start es)) = Some App.Diagnostics ->
   App.inflight (App.run env App.start es) ≠ [])
  /\ (App.renderOverlay (App.ui (App.run env App.start es))
      = Some App.AnalysisFailed ->
      exists txt j,
        geminiService.JSON_parse env txt = Returned j
        /\ App.truthy_json j = false
        /\ App.analysis (App.ui (App.run env App.start es)) = Some j).
Proof.
  destruct (overlay_inv_run env es) as (Hshow & Horigin & Hbusy).
  unfold App.renderOverlay.
  destruct (App.showAnalysis _) eqn:Hs; [| done].
  destruct (App.analyzing _) eqn:Ha.
  - split; [intros _; by apply Hbusy | done].
  - split; [by destruct (App.analysis _) as [a|]; [destruct (App.truthy_json a)|] |].
    destruct (Hshow eq_refl eq_refl) as [j Hj]. rewrite Hj.
    destruct (App.truthy_json j) eqn:Htruthy; [done |]. intros _.
    destruct (Horigin j Hj) as [snapshot Hsnap].
    destruct (checkCompatibility_origin _ _ _ Hsnap) as [-> | [txt Htxt]];
      [done |].
    by exists txt, j.
Qed.

Lemma X23_analysis_failed_witness :
  exists txt j,
    geminiService.JSON_parse env_null txt = Returned j
    /\ App.truthy_json j = false
    /\ App.analysis
         (App.ui (App.run env_null App.start
                    [App.AddPart ryzen; App.RunAnalysis; App.AnalysisSettles 0]))
       = Some j.
Proof.
  apply (proj2 (X23_analysis_failed_means_falsy_answer env_null
                  [App.AddPart ryzen; App.RunAnalysis; App.AnalysisSettles 0])).
  reflexivity.
Defined.

(** X24. When the service fails for a request whose overlay is still
    open, the overlay shows the fallback report once the request settles,
    not "Analysis failed.". *)
Theorem X24_failure_shows_fallback_report (env : geminiService.Env)
    (p : App.Page) (i : nat) (snapshot : BuildState) :
  App.inflight p !! i = Some snapshot ->
  App.showAnalysis (App.ui p) = true ->
  (exists e, geminiService.getAI env = Thrown e)
  \/ (exists e, geminiService.generateContent env
                  (geminiService.AnalysisRequest snapshot) = Thrown e) ->
  App.renderOverlay (App.ui (App.step env p (App.AnalysisSettles i)))
  = Some (App.Report geminiService.fallback).
Proof.
  intros Hi Hshow Hfail.
  destruct (analysis_settles env p i snapshot Hi) as (j & Hj & -> & _).
  rewrite (checkCompatibility_throws _ _ Hfail) in Hj. injection Hj as <-.
  unfold App.renderOverlay. cbn. by rewrite Hshow.
Qed.

Lemma X24_failure_witness :
  App.renderOverlay
    (App.ui (App.step env_offline
               (App.run env_offline App.start [App.AddPart ryzen; App.RunAnalysis])
               (App.AnalysisSettles 0)))
  = Some (App.Report geminiService.fallback).
Proof.
  apply (X24_failure_shows_fallback_report env_offline _ 0 [(CPU, ryzen)]);
    [reflexivity | reflexivity |].
  right. exists "TypeError: fetch failed". reflexivity.
Defined.

(** X25. The first response to arrive ends the spinner, even while other
    analysis calls are still in flight. *)
Theorem X25_spinner_ends_at_first_response (env : geminiService.Env)
    (p : App.Page) (i : nat) (snapshot : BuildState) :
  App.inflight p !! i = Some snapshot ->
  (2 <= length (App.inflight p))%nat ->
  App.analyzing (App.ui (App.step env p (App.AnalysisSettles i))) = false
  /\ App.inflight (App.step env p (App.AnalysisSettles i)) ≠ []
  /\ length (App.inflight (App.step env p (App.AnalysisSettles i)))
     = (length (App.inflight p) - 1)%nat.
Proof.
  intros Hi Hlen.
  destruct (analysis_settles env p i snapshot Hi) as (j & _ & -> & ->).
  assert (length (delete i (App.inflight p)) = (length (App.inflight p) - 1)%nat)
    as Hdel by (apply length_delete; by eexists).
  split_and!; [done | | done].
  intros Hnil. rewrite Hnil in Hdel. cbn in Hdel. lia.
Qed.

Lemma X25_spinner_witness :
  App.analyzing
    (App.ui (App.run env_slow_first App.start
               [App.AddPart ryzen; App.RunAnalysis; App.AddPart core_i5;
                App.RunAnalysis; App.AnalysisSettles 1]))
  = false.
Proof.
  apply (X25_spinner_ends_at_first_response env_slow_first
           (App.run env_slow_first App.start
              [App.AddPart ryzen; App.RunAnalysis; App.AddPart core_i5;
               App.RunAnalysis])
           1 [(CPU, core_i5)]); [reflexivity | cbn; lia].
Defined.

(** ** The earlier revision of the diagram *)

Lemma old_ids build :
  VisualBuilderOld.id <$> VisualBuilderOld.renderConnections build
  = edge <$> filter (fun r => fires build r) old_rule_table.
Proof.
  unfold old_rule_table. rewrite !filter_cons, filter_nil.
  unfold fires, VisualBuilderOld.renderConnections. cbn [source target].
  by_slots build; vm_compute; reflexivity.
Qed.

Lemma old_anchors build :
  Forall (fun c =>
            VisualBuilderOld.id c = "cpu-ram" ->
            VisualBuilderOld.from c = VisualBuilder.centers CPU
            /\ VisualBuilderOld.to c = VisualBuilder.centers RAM)
         (VisualBuilderOld.renderConnections build).
Proof.
  unfold VisualBuilderOld.renderConnections.
  by_slots build; cbn; repeat constructor; cbn; intros; done.
Qed.

(** X26. The earlier revision draws the connections of a table of four
    rules, in order: power supply to motherboard, power supply to
    graphics card, the data-bus edge, and motherboard to storage.  Its
    data-bus edge is fired by the motherboard and memory slots, with or
    without a processor, yet is anchored at the centres of the processor
    and memory slots. *)
Theorem X26_old_revision_rules (build : BuildState) :
  VisualBuilderOld.id <$> VisualBuilderOld.renderConnections build
  = edge <$> filter (fun r => fires build r) old_rule_table
  /\ ("cpu-ram" ∈ VisualBuilderOld.id <$> VisualBuilderOld.renderConnections build
      <-> filled build MOTHERBOARD /\ filled build RAM)
  /\ Forall (fun c =>
               VisualBuilderOld.id c = "cpu-ram" ->
               VisualBuilderOld.from c = VisualBuilder.centers CPU
               /\ VisualBuilderOld.to c = VisualBuilder.centers RAM)
            (VisualBuilderOld.renderConnections build).
Proof.
  split_and!; [apply old_ids | | apply old_anchors].
  rewrite old_ids, list_elem_of_fmap. split.
  - intros (r & Hedge & [Hf Hr]%list_elem_of_filter).
    apply Is_true_true, fires_filled in Hf.
    unfold old_rule_table in Hr.
    repeat (apply elem_of_cons in Hr as [-> | Hr]); try done.
    by apply elem_of_nil in Hr.
  - intros Hfilled.
    exists {| source := MOTHERBOARD; target := RAM; edge := "cpu-ram";
              edge_kind := data |}.
    split; [done |]. apply list_elem_of_filter. split.
    + apply Is_true_true, fires_filled. by cbn.
    + unfold old_rule_table. do 2 right. left.
Qed.

Lemma X26_old_revision_witness :
  "cpu-ram"
  ∈ VisualBuilderOld.id
      <$> VisualBuilderOld.renderConnections [(MOTHERBOARD, b650); (RAM, ddr5)].
Proof.
  apply (proj1 (proj2 (X26_old_revision_rules [(MOTHERBOARD, b650); (RAM, ddr5)]))).
  split; by eexists.
Defined.
